(** * GoogleSearch_Scraper: the extraction pipeline of [Google_Search.py]

    A shallow embedding of [GoogleSearchScraper.search_google],
    [extract_page_content] and [scrape_search_results], and the properties
    of the pipeline's specification that hold (or fail) on them.

    Conventions.
    - A Python [str] is a Rocq [string] whose characters are the code points
      below 256; [None] is [option]'s [None].
    - An awaited Playwright call either returns a value or raises an
      [Exception]; an exception is represented by its message [str(e)].
    - A Python [dict] is a [gmap string pyval]; the dict literal a search
      result is built from is the record [SearchResult], turned into a dict
      by [sr_dict] where the code merges it.
    - Logging and the randomised sleeps of [human_like_delay] carry no data
      and are left out. *)

From Stdlib Require Import ZArith Ascii String List Bool Lia.
From stdpp Require Import base option list gmap strings pretty.

Local Open Scope string_scope.
Local Open Scope Z_scope.

(** ** Outcomes of awaited calls *)

Inductive res (A : Type) : Type :=
| Ok (a : A)
| Raise (e : string).
Arguments Ok {A} a.
Arguments Raise {A} e.

Global Instance res_ret : MRet res := fun A a => Ok a.
Global Instance res_bind : MBind res := fun A B f m =>
  match m with
  | Ok a => f a
  | Raise e => Raise e
  end.
Global Instance res_fmap : FMap res := fun A B f m =>
  match m with
  | Ok a => Ok (f a)
  | Raise e => Raise e
  end.

(** [try: m except Exception as e: h e] *)
Definition try_except {A} (m : res A) (h : string -> res A) : res A :=
  match m with
  | Ok a => Ok a
  | Raise e => h e
  end.

(** [try: m finally: f]: an exception of [f] replaces the outcome of [m]. *)
Definition try_finally {A} (m : res A) (f : res unit) : res A :=
  match f with
  | Ok _ => m
  | Raise e => Raise e
  end.

Definition raised {A} (m : res A) : bool :=
  match m with
  | Ok _ => false
  | Raise _ => true
  end.

(** ** Python string primitives *)

Module PyStr.

(** [c.isspace()] for the code points below 256. *)
Definition isspace (c : ascii) : bool :=
  let n := N_of_ascii c in
  ((9 <=? n) && (n <=? 13) || (28 <=? n) && (n <=? 32)
   || (n =? 133) || (n =? 160))%N.

Fixpoint lstrip (s : string) : string :=
  match s with
  | String c r => if isspace c then lstrip r else s
  | EmptyString => EmptyString
  end.

Fixpoint rstrip (s : string) : string :=
  match s with
  | String c r =>
      match rstrip r with
      | EmptyString => if isspace c then EmptyString else String c EmptyString
      | r' => String c r'
      end
  | EmptyString => EmptyString
  end.

(** [s.strip()] *)
Definition strip (s : string) : string := rstrip (lstrip s).

(** [s.startswith(p)] *)
Fixpoint startswith (p s : string) : bool :=
  match p, s with
  | EmptyString, _ => true
  | String a p', String b s' => if Ascii.eqb a b then startswith p' s' else false
  | String _ _, EmptyString => false
  end.

(** [p in s] *)
Fixpoint contains (p s : string) : bool :=
  startswith p s ||
  match s with
  | String _ r => contains p r
  | EmptyString => false
  end.

(** [len(s.split())]: the number of maximal runs of non-space characters.
    [inword] tells whether the previous character belonged to a word. *)
Fixpoint count_words (inword : bool) (s : string) : Z :=
  match s with
  | EmptyString => 0
  | String c r =>
      if isspace c then count_words false r
      else (if inword then 0 else 1) + count_words true r
  end.

(** [s[:n]] for [n >= 0] *)
Fixpoint take (n : nat) (s : string) : string :=
  match n, s with
  | S n', String c r => String c (take n' r)
  | _, _ => EmptyString
  end.

(** [bool(s)] for an [Optional[str]] *)
Definition truthy (o : option string) : bool :=
  match o with
  | Some (String _ _) => true
  | _ => false
  end.

(** [l[:stop]] for a Python int [stop]: a negative [stop] counts from the
    end of the list. *)
Definition slice_to {A} (l : list A) (stop : Z) : list A :=
  if stop <? 0
  then firstn (Z.to_nat (Z.max 0 (Z.of_nat (length l) + stop))) l
  else firstn (Z.to_nat stop) l.

End PyStr.



(** ** [urllib.parse.urlparse(url).netloc]

    The standard library's [urlsplit], as far as the network location goes
    (CPython 3.11): leading control characters and spaces are dropped, tab,
    CR and LF are removed everywhere, a leading scheme is cut at the first
    colon, and after a double slash the network location runs up to the
    first slash, question mark or hash.  A network location with unbalanced
    square brackets raises [ValueError]; the two further validations (of a
    bracketed host through [ipaddress], of a non-ASCII network location
    through [unicodedata]) are taken as parameters. *)

Module UrlParse.

Definition c0_control_or_space (c : ascii) : bool := (N_of_ascii c <=? 32)%N.

Fixpoint lstrip_c0 (s : string) : string :=
  match s with
  | String c r => if c0_control_or_space c then lstrip_c0 r else s
  | EmptyString => EmptyString
  end.

Definition unsafe_byte (c : ascii) : bool :=
  let n := N_of_ascii c in ((n =? 9) || (n =? 13) || (n =? 10))%N.

Fixpoint remove_unsafe (s : string) : string :=
  match s with
  | String c r => if unsafe_byte c then remove_unsafe r else String c (remove_unsafe r)
  | EmptyString => EmptyString
  end.

Definition ascii_alpha (c : ascii) : bool :=
  let n := N_of_ascii c in
  ((65 <=? n) && (n <=? 90) || (97 <=? n) && (n <=? 122))%N.

Definition scheme_char (c : ascii) : bool :=
  let n := N_of_ascii c in
  (ascii_alpha c || (48 <=? n) && (n <=? 57)
   || (n =? 43) || (n =? 45) || (n =? 46))%N.

Fixpoint all_chars (p : ascii -> bool) (s : string) : bool :=
  match s with
  | String c r => p c && all_chars p r
  | EmptyString => true
  end.

Fixpoint has_char (x : ascii) (s : string) : bool :=
  match s with
  | String c r => Ascii.eqb x c || has_char x r
  | EmptyString => false
  end.

(** [(url[:i], url[i+1:])] for [i = url.find(c)], when [c] occurs. *)
Fixpoint partition (x : ascii) (s : string) : option (string * string) :=
  match s with
  | String c r =>
      if Ascii.eqb x c then Some (EmptyString, r)
      else match partition x r with
           | Some (a, b) => Some (String c a, b)
           | None => None
           end
  | EmptyString => None
  end.

Definition strip_scheme (url : string) : string :=
  match partition ":" url with
  | Some (String c0 _ as scheme, rest) =>
      if ascii_alpha c0 && all_chars scheme_char scheme then rest else url
  | _ => url
  end.

Definition netloc_delim (c : ascii) : bool :=
  Ascii.eqb c "/" || Ascii.eqb c "?" || Ascii.eqb c "#".

(** [url[:delim]] for the earliest delimiter, as in [_splitnetloc] *)
Fixpoint upto_delim (s : string) : string :=
  match s with
  | String c r => if netloc_delim c then EmptyString else String c (upto_delim r)
  | EmptyString => EmptyString
  end.

Definition is_ascii (s : string) : bool :=
  all_chars (fun c => (N_of_ascii c <? 128)%N) s.

Section Netloc.
Variable check_bracketed_netloc : string -> res unit.
Variable checknetloc : string -> res unit.

Definition netloc (url0 : string) : res string :=
  let url := strip_scheme (remove_unsafe (lstrip_c0 url0)) in
  match url with
  | String "/" (String "/" rest) =>
      let nl := upto_delim rest in
      let lb := has_char "[" nl in
      let rb := has_char "]" nl in
      if lb && negb rb || rb && negb lb then Raise "Invalid IPv6 URL"
      else
        _ ← (if lb && rb then check_bracketed_netloc nl else Ok tt);
        _ ← (if is_ascii nl then Ok tt else checknetloc nl);
        Ok nl
  | _ => Ok EmptyString
  end.
End Netloc.

(** The network location when the two outside validations accept. *)
Definition netloc_lenient : string -> res string :=
  netloc (fun _ => Ok tt) (fun _ => Ok tt).

End UrlParse.


(** ** The query capability of a rendered page (Playwright) *)

(** A matched element: [text_content()] and [get_attribute(name)]. *)
Record Element := {
  text_content : res (option string);
  get_attribute : string -> res (option string)
}.

(** A locator resolves to the elements it matches, in document order, or
    fails to resolve. *)
Definition Locator := res (list Element).

(** [await locator.count()] *)
Definition count (l : Locator) : res Z :=
  els ← l; Ok (Z.of_nat (length els)).

(** [locator.first]: an action on it times out when nothing matches. *)
Definition first (l : Locator) : res Element :=
  els ← l;
  match els with
  | e :: _ => Ok e
  | [] => Raise "Timeout 30000ms exceeded."
  end.

(** One result node of the search page: [result.locator(selector)]. *)
Record Node := { locator : string -> Locator }.

(** The search page: what each awaited call of [search_google] on the page
    produces. *)
Record SearchPage := {
  sp_goto : string -> res unit;
  sp_debug_page_content : string -> res unit;
  sp_wait_for_selector : string -> res unit;
  sp_locator_all : string -> res (list Node);
  sp_close : res unit
}.

(** ** Search results *)

Record SearchResult := {
  position : Z;
  title : string;
  url : string;
  snippet : string;
  domain : string;
  search_query : string
}.

(** The one-character string holding a double quote. *)
Definition dquote : string := String (ascii_of_N 34) EmptyString.

Definition title_selectors : list string := ["h3"; "h2"; ".LC20lb"; ".DKV0Md"].
Definition link_selectors : list string := ["a[href]"; "[href]"].
Definition snippet_selectors : list string :=
  [".VwiC3b"; ".s3v9rd"; ".st"; "[data-sncf=" +:+ dquote +:+ "1" +:+ dquote +:+ "]"; ".IsZvec"; ".aCOpRe"].

Definition result_selectors : list string :=
  ["#search"; "#rso"; ".g"; "[data-header-feature]"; ".MjjYud"; ".hlcw0c"].
Definition search_result_selectors : list string :=
  [".g"; ".MjjYud"; "[data-sokoban-container] .g"; ".hlcw0c"; "[jscontroller] .g"].

(** The substrings of line 265 that make a url one of Google's own. *)
Definition excluded_domains : list string :=
  ["google.com"; "youtube.com/results"; "googleadservices"].

(** [any(domain in url for domain in [...])] *)
Definition excluded (url : string) : bool :=
  existsb (fun d => PyStr.contains d url) excluded_domains.

(** ** The selector cascade

    The loop the code writes out for the title, the link and the snippet:
    [cur] is the variable the loop assigns ([title], [url], [snippet]),
    [get] reads the first match of a selector and [accept] is the test that
    breaks out of the loop. *)
Fixpoint cascade (get : Element -> res (option string))
    (accept : option string -> bool)
    (result : Node) (selectors : list string) (cur : option string)
    : res (option string) :=
  match selectors with
  | [] => Ok cur
  | sel :: rest =>
      let element := locator result sel in
      n ← count element;
      if 0 <? n then
        v ← (e ← first element; get e);
        if accept v then Ok v else cascade get accept result rest v
      else cascade get accept result rest cur
  end.

(** [title and title.strip()] *)
Definition accept_text (v : option string) : bool :=
  match v with
  | Some s => PyStr.truthy (Some s) && PyStr.truthy (Some (PyStr.strip s))
  | None => false
  end.

(** [url and url.startswith('http')] *)
Definition accept_link (v : option string) : bool :=
  match v with
  | Some s => PyStr.truthy (Some s) && PyStr.startswith "http" s
  | None => false
  end.

Definition get_href (e : Element) : res (option string) := get_attribute e "href".

(** [query.replace(' ', '+')] *)
Fixpoint replace_space_plus (s : string) : string :=
  match s with
  | String c r => String (if Ascii.eqb c " " then "+"%char else c) (replace_space_plus r)
  | EmptyString => EmptyString
  end.

(** [if self.debug: await self.debug_page_content(page, step)] *)
Definition debug_page_content (debug : bool) (page : SearchPage) (step : string)
    : res unit :=
  if debug then sp_debug_page_content page step else Ok tt.

(** The first container selector [wait_for_selector] finds; a failed wait
    moves on to the next one. *)
Fixpoint wait_for_container (page : SearchPage) (selectors : list string)
    : option string :=
  match selectors with
  | [] => None
  | sel :: rest =>
      match sp_wait_for_selector page sel with
      | Ok _ => Some sel
      | Raise _ => wait_for_container page rest
      end
  end.

(** The nodes of the first selector that matches any. *)
Fixpoint locate_results (page : SearchPage) (selectors : list string)
    : res (list Node) :=
  match selectors with
  | [] => Ok []
  | sel :: rest =>
      search_results ← sp_locator_all page sel;
      match search_results with
      | [] => locate_results page rest
      | _ => Ok search_results
      end
  end.

Section SearchGoogle.

(** [urlparse(url).netloc], which may raise [ValueError]. *)
Variable urlparse_netloc : string -> res string.

(** The body of the [try] of one loop iteration (lines 229-275), for a
    list [results] of length [n_results]: [Ok None] is a [continue],
    [Ok (Some r)] is [results.append(r)]. *)
Definition extract_result (query : string) (result : Node) (n_results : nat)
    : res (option SearchResult) :=
  title ← cascade text_content accept_text result title_selectors (Some "");
  url ← cascade get_href accept_link result link_selectors (Some "");
  snippet ← cascade text_content accept_text result snippet_selectors (Some "");
  match title, url with
  | Some title_s, Some url_s =>
      if negb (PyStr.truthy title) || negb (PyStr.truthy url)
         || negb (PyStr.startswith "http" url_s)
      then Ok None
      else if excluded url_s then Ok None
      else
        netloc ← urlparse_netloc url_s;
        Ok (Some {| position := Z.of_nat n_results + 1;
                    title := PyStr.strip title_s;
                    url := url_s;
                    snippet := match snippet with
                               | Some (String _ _ as s) => PyStr.strip s
                               | _ => "No description available"
                               end;
                    domain := netloc;
                    search_query := query |})
  | _, _ => Ok None
  end.

(** The loop of lines 227-281 over the sliced node list; an exception in
    an iteration skips the node. *)
Fixpoint process_results (query : string) (nodes : list Node)
    (results : list SearchResult) : list SearchResult :=
  match nodes with
  | [] => results
  | result :: rest =>
      match extract_result query result (length results) with
      | Ok (Some r) => process_results query rest (results ++ [r])
      | Ok None | Raise _ => process_results query rest results
      end
  end.

(** The [try] block of [search_google]: its value is [results] at the
    point the block is left.  The consent dialogue, closed inside a
    [try]/[except] of its own, touches neither [results] nor the control
    flow and is left out. *)
Definition search_google_try (page : SearchPage) (debug : bool)
    (query : string) (max_results : Z) : res (list SearchResult) :=
  let search_url := "https://www.google.com/search?q=" +:+ replace_space_plus query in
  _ ← sp_goto page search_url;
  _ ← debug_page_content debug page "after_navigation";
  _ ← debug_page_content debug page "after_consent";
  match wait_for_container page result_selectors with
  | None =>
      _ ← debug_page_content debug page "no_results_found";
      Ok []
  | Some _ =>
      search_results ← locate_results page search_result_selectors;
      match search_results with
      | [] =>
          _ ← debug_page_content debug page "no_individual_results";
          Ok []
      | _ =>
          Ok (process_results query (PyStr.slice_to search_results max_results) [])
      end
  end.

(** [search_google]: [new_page] is the outcome of
    [self.context.new_page()].  Every exception of the [try] block is
    raised before the loop, with [results] still empty, so the handler
    returns the empty list. *)
Definition search_google (new_page : res SearchPage) (debug : bool)
    (query : string) (max_results : Z) : res (list SearchResult) :=
  page ← new_page;
  try_finally
    (try_except (search_google_try page debug query max_results)
       (fun _ => _ ← debug_page_content debug page "error_state"; Ok []))
    (sp_close page).

End SearchGoogle.

(** ** Content records *)

(** The values a record of the pipeline holds. *)
#[warnings="-register-all"]
Inductive pyval : Type :=
| VNone
| VInt (z : Z)
| VStr (s : string)
| VList (l : list pyval)
| VDict (items : list (string * pyval)).

(** A heading element: [evaluate('el => el.tagName.toLowerCase()')] and
    [text_content()]. *)
Record Heading := {
  h_tag_name : res string;
  h_text_content : res (option string)
}.

(** The page [extract_page_content] opens: what each awaited call on it
    produces.  [cp_goto] is the response's status, [None] without a
    response; [cp_evaluate] is the text the main-content script returns. *)
Record ContentPage := {
  cp_goto : res (option Z);
  cp_wait_for_load_state : res unit;
  cp_evaluate : res (option string);
  cp_meta_description : res (option string);
  cp_headings : res (list Heading);
  cp_close : res unit
}.

(** The dict [content_data] starts as (lines 298-312); [now] is
    [datetime.now().isoformat()]. *)
Definition default_content (url title now : string) : gmap string pyval :=
  list_to_map
    [("url", VStr url); ("title", VStr title); ("content", VStr "");
     ("text_content", VStr ""); ("meta_description", VStr "");
     ("headings", VList []); ("links", VList []); ("images", VList []);
     ("status_code", VNone); ("error", VNone); ("scraped_at", VStr now);
     ("word_count", VInt 0); ("reading_time", VInt 0)].

(** The [try] body of one heading (lines 379-385): [Ok None] appends
    nothing. *)
Definition heading_entry (heading : Heading) : res (option pyval) :=
  tag_name ← h_tag_name heading;
  text ← h_text_content heading;
  match text with
  | Some s =>
      if accept_text text
      then Ok (Some (VDict [("level", VStr tag_name);
                            ("text", VStr (PyStr.take 200 (PyStr.strip s)))]))
      else Ok None
  | None => Ok None
  end.

(** The loop of lines 377-387 appending to [content_data['headings']]. *)
Fixpoint collect_headings (headings : list Heading) (acc : list pyval)
    : list pyval :=
  match headings with
  | [] => acc
  | heading :: rest =>
      match heading_entry heading with
      | Ok (Some v) => collect_headings rest (acc ++ [v])
      | Ok None | Raise _ => collect_headings rest acc
      end
  end.

(** Lines 359-365: the trimmed text and the metrics derived from it. *)
Definition set_text (text_content : option string)
    (content_data : gmap string pyval) : gmap string pyval :=
  let text := match text_content with
              | Some (String _ _ as s) => PyStr.strip s
              | _ => EmptyString
              end in
  let content_data := <["text_content" := VStr text]> content_data in
  if PyStr.truthy (Some text) then
    let words := PyStr.count_words false text in
    <["reading_time" := VInt (Z.max 1 (words / 200))]>
      (<["word_count" := VInt words]> content_data)
  else content_data.

(** Lines 368-372 *)
Definition set_meta_description (page : ContentPage)
    (content_data : gmap string pyval) : gmap string pyval :=
  match cp_meta_description page with
  | Ok (Some (String _ _ as meta_desc)) =>
      <["meta_description" := VStr meta_desc]> content_data
  | Ok _ => <["meta_description" := VStr ""]> content_data
  | Raise _ => content_data
  end.

(** Lines 375-389 *)
Definition set_headings (page : ContentPage)
    (content_data : gmap string pyval) : gmap string pyval :=
  match cp_headings page with
  | Ok headings =>
      <["headings" := VList (collect_headings (firstn 20 headings) [])]> content_data
  | Raise _ => content_data
  end.

Definition extraction_error (url e : string) : string :=
  "Error extracting content from " +:+ url +:+ ": " +:+ e.

(** Lines 330-396: what follows a navigation that did not return early.
    The outcome of the settle wait is dropped; an exception of the
    main-content script reaches the outer handler, which records it. *)
Definition extract_after_navigation (page : ContentPage) (url : string)
    (content_data : gmap string pyval) : gmap string pyval :=
  let _ := try_except (cp_wait_for_load_state page) (fun _ => Ok tt) in
  match cp_evaluate page with
  | Raise e => <["error" := VStr (extraction_error url e)]> content_data
  | Ok text_content =>
      set_headings page (set_meta_description page (set_text text_content content_data))
  end.

(** Lines 318-328 and on: navigation, then the early returns or the rest. *)
Definition extract_in_page (page : ContentPage) (url : string)
    (content_data : gmap string pyval) : gmap string pyval :=
  match cp_goto page with
  | Raise nav_error =>
      <["error" := VStr ("Navigation failed: " +:+ nav_error)]> content_data
  | Ok response =>
      let content_data :=
        <["status_code" := match response with
                           | Some status => VInt status
                           | None => VNone
                           end]> content_data in
      match response with
      | Some status =>
          if 400 <=? status
          then <["error" := VStr ("HTTP " +:+ pretty status)]> content_data
          else extract_after_navigation page url content_data
      | None => extract_after_navigation page url content_data
      end
  end.

(** [extract_page_content]: [new_page] is the outcome of
    [self.context.new_page()], awaited before the [try]; the page is closed
    in the [finally].  The admission through [self.semaphore] orders the
    calls in time and is not part of the value computed. *)
Definition extract_page_content (new_page : res ContentPage) (now : string)
    (url title : string) : res (gmap string pyval) :=
  page ← new_page;
  try_finally
    (Ok (extract_in_page page url (default_content url title now)))
    (cp_close page).

(** ** Fan-out and merge *)

(** The dict of line 268. *)
Definition sr_dict (r : SearchResult) : gmap string pyval :=
  list_to_map
    [("position", VInt (position r)); ("title", VStr (title r));
     ("url", VStr (url r)); ("snippet", VStr (snippet r));
     ("domain", VStr (domain r)); ("search_query", VStr (search_query r))].

(** The record of lines 424-429 standing in for a raised failure. *)
Definition failure_record (search_result : SearchResult) (e now : string)
    : gmap string pyval :=
  list_to_map
    [("url", VStr (url search_result)); ("title", VStr (title search_result));
     ("error", VStr e); ("scraped_at", VStr now)].

(** Lines 422-432: [{**search_result, **content_result}], the content
    fields winning. *)
Definition combine (now : string) (search_result : SearchResult)
    (content_result : res (gmap string pyval)) : gmap string pyval :=
  let content_result :=
    match content_result with
    | Ok c => c
    | Raise e => failure_record search_result e now
    end in
  content_result ∪ sr_dict search_result.

Section ScrapeSearchResults.

(** [run i url title] is what the [i]-th task
    [extract_page_content(url, title)] hands to
    [asyncio.gather(..., return_exceptions=True)]: its record, or the
    [Exception] it raised.  [now i] is the clock read in iteration [i]. *)
Variable run : nat -> string -> string -> res (gmap string pyval).
Variable now : nat -> string.

Definition gather (search_results : list SearchResult)
    : list (res (gmap string pyval)) :=
  imap (fun i result => run i (url result) (title result)) search_results.

Definition scrape_search_results (search_results : list SearchResult)
    : list (gmap string pyval) :=
  match search_results with
  | [] => []
  | _ =>
      let content_results := gather search_results in
      imap (fun i '(search_result, content_result) =>
              combine (now i) search_result content_result)
           (zip search_results content_results)
  end.

End ScrapeSearchResults.

(** ** Derived notions used by the statements *)

(** The first match's value of one candidate selector. *)
Definition first_value (get : Element -> res (option string)) (result : Node)
    (sel : string) : res (option string) :=
  e ← first (locator result sel); get e.

(** A candidate is passed over by the cascade: it resolves, and either
    matches nothing or its first match fails the test. *)
Definition passed_over (get : Element -> res (option string))
    (accept : option string -> bool) (result : Node) (sel : string) : Prop :=
  exists n, count (locator result sel) = Ok n /\
    (n <= 0 \/ exists v, first_value get result sel = Ok v /\ accept v = false).

(** A candidate qualifies with value [v]: it has a match, and its first
    match's value [v] passes the test. *)
Definition qualifies_with (get : Element -> res (option string))
    (accept : option string -> bool) (result : Node) (sel : string)
    (v : option string) : Prop :=
  exists n, count (locator result sel) = Ok n /\ 0 < n /\
    first_value get result sel = Ok v /\ accept v = true.

(** A node is accepted by the loop: its iteration appends a record. *)
Definition accepted (urlparse_netloc : string -> res string) (query : string)
    (result : Node) : bool :=
  match extract_result urlparse_netloc query result 0 with
  | Ok (Some _) => true
  | _ => false
  end.

(** The page loads and yields the raw result nodes [nodes]: navigation and
    (in debug mode) the captures succeed, a container is found, the node
    cascade yields [nodes], and the page closes. *)
Definition page_yields (page : SearchPage) (debug : bool) (query : string)
    (nodes : list Node) : Prop :=
  sp_goto page ("https://www.google.com/search?q=" +:+ replace_space_plus query) = Ok tt
  /\ (forall step, debug_page_content debug page step = Ok tt)
  /\ wait_for_container page result_selectors <> None
  /\ locate_results page search_result_selectors = Ok nodes
  /\ sp_close page = Ok tt.

(** ** Concrete pages used by the examples *)

Definition element (text href : option string) : Element :=
  {| text_content := Ok text;
     get_attribute := fun name => if String.eqb name "href" then Ok href else Ok None |}.

(** A node matching the given elements for each listed selector and
    nothing for the others. *)
Fixpoint node_of (matches : list (string * list Element)) : Node :=
  match matches with
  | [] => {| locator := fun _ => Ok [] |}
  | (sel, els) :: rest =>
      {| locator := fun s => if String.eqb s sel then Ok els else locator (node_of rest) s |}
  end.

(** A result block: an [h3] heading with the title inside a link. *)
Definition result_node (title href : string) : Node :=
  node_of [("h3", [element (Some title) None]);
           ("a[href]", [element (Some title) (Some href)]);
           ("[href]", [element (Some title) (Some href)])].

(** A search page on which every call succeeds and [.g] matches [nodes]. *)
Definition page_with (nodes : list Node) : SearchPage :=
  {| sp_goto := fun _ => Ok tt;
     sp_debug_page_content := fun _ => Ok tt;
     sp_wait_for_selector := fun _ => Ok tt;
     sp_locator_all := fun sel => if String.eqb sel ".g" then Ok nodes else Ok [];
     sp_close := Ok tt |}.

Definition site (i : Z) : Node :=
  result_node ("Site " +:+ pretty i) ("https://site" +:+ pretty i +:+ ".example.org/").

Definition google_node : Node :=
  result_node "Google" "https://www.google.com/maps".

(** Fifteen raw nodes, the first two of Google's own, thirteen qualifying. *)
Definition fifteen_nodes : list Node :=
  google_node :: google_node :: map site (seqZ 1 13).

(** The record [search_google] builds for [site 1] as the first result of
    the query [q]. *)
Definition site1_record : SearchResult :=
  {| position := 1; title := "Site 1"; url := "https://site1.example.org/";
     snippet := "No description available";
     domain := "site1.example.org"; search_query := "q" |}.

(** The same fifteen nodes with the two of Google's own at the end. *)
Definition fifteen_nodes_tail : list Node :=
  (map site (seqZ 1 13) ++ [google_node; google_node])%list.

Definition three_sites : list Node := [site 1; site 2; site 3].

(** A link whose authority carries a tab, which a browser and [urlparse]
    both drop. *)
Definition tab_url : string :=
  "http://goo" +:+ String (ascii_of_N 9) "gle.com/".

Definition tab_node : Node := result_node "News" tab_url.

(** A relative link to a file whose name starts with [http]. *)
Definition relative_node : Node := result_node "Manual" "httpd-manual.html".

(** A result whose heading holds a single space. *)
Definition blank_title_node : Node :=
  node_of [("h3", [element (Some " ") None]);
           ("a[href]", [element None (Some "https://example.com/")])].

(** A result of another site whose link mentions Google in its query. *)
Definition referral_url : string := "https://example.org/?ref=google.com".
Definition referral_node : Node := result_node "Example" referral_url.

(** A node with one blank [h3]; and a node whose first [h3] is blank, whose
    second [h3] is not, and which has an [h2]. *)
Definition blank_heading_node : Node :=
  node_of [("h3", [element (Some " ") None])].
Definition two_heading_node : Node :=
  node_of [("h3", [element (Some " ") None; element (Some "Real") None]);
           ("h2", [element (Some "Other") None])].

(** The values [get] reads off the matches of a selector. *)
Definition match_values (get : Element -> res (option string)) (result : Node)
    (sel : string) : list (option string) :=
  match locator result sel with
  | Ok els =>
      flat_map (fun e => match get e with Ok v => [v] | Raise _ => [] end) els
  | Raise _ => []
  end.

(** The resolver as the specification words it (section 4.1): the
    candidates in order, the first one that has at least one match
    satisfying the predicate gives the result, and the result is absent
    ([None]) when no candidate has one. *)
Fixpoint resolve_spec {V} (matches : string -> list V) (accept : V -> bool)
    (candidates : list string) : option V :=
  match candidates with
  | [] => None
  | c :: rest =>
      match List.find accept (matches c) with
      | Some v => Some v
      | None => resolve_spec matches accept rest
      end
  end.

(** A content page on which every call succeeds. *)
Definition content_page (status : option Z) (text : string) : ContentPage :=
  {| cp_goto := Ok status;
     cp_wait_for_load_state := Ok tt;
     cp_evaluate := Ok (Some text);
     cp_meta_description := Ok None;
     cp_headings := Ok [];
     cp_close := Ok tt |}.

(** A page that answers 200 and delivers its text, while the settle wait
    times out and the meta description and the headings cannot be read. *)
Definition settle_timeout_page : ContentPage :=
  {| cp_goto := Ok (Some 200);
     cp_wait_for_load_state := Raise "Timeout 15000ms exceeded.";
     cp_evaluate := Ok (Some "hello world");
     cp_meta_description := Raise "Timeout 30000ms exceeded.";
     cp_headings := Raise "Target closed";
     cp_close := Ok tt |}.

(** Three tasks of which the second raises. *)
Definition run_second_fails (i : nat) (url title : string)
    : res (gmap string pyval) :=
  if Nat.eqb i 1 then Raise "Target page, context or browser has been closed"
  else extract_page_content (Ok (content_page (Some 200) "hello world"))
         "2024-05-01T10:00:00" url title.

Definition clock (i : nat) : string := "2024-05-01T10:00:09".

Definition site2_record : SearchResult :=
  {| position := 2; title := "Site 2"; url := "https://site2.example.org/";
     snippet := "No description available";
     domain := "site2.example.org"; search_query := "q" |}.

(** ** The main-content script (lines 339-357)

    The document as the script sees it once the unwanted elements are
    removed: [querySelector(selector)] gives the [innerText] of the first
    matching element, if any; [document.body.innerText] is the text of the
    body.  A character below 256 is one UTF-16 unit, so [.length] is the
    number of characters. *)
Record Document := {
  query_selector : string -> option string;
  body_inner_text : string
}.

Definition content_selectors : list string :=
  ["main"; "article"; ".content"; ".post"; ".article-body"; ".entry-content";
   ".post-content"].

(** The [for] loop of the script: the text of the first selector whose
    element exists and holds more than 200 characters. *)
Fixpoint first_long_text (document : Document) (selectors : list string)
    : option string :=
  match selectors with
  | [] => None
  | selector :: rest =>
      match query_selector document selector with
      | Some inner_text =>
          if (200 <? String.length inner_text)%nat then Some inner_text
          else first_long_text document rest
      | None => first_long_text document rest
      end
  end.

(** The value the script returns; the empty string stands for itself in
    [document.body.innerText || '']. *)
Definition main_content_script (document : Document) : string :=
  match first_long_text document content_selectors with
  | Some inner_text => inner_text
  | None => body_inner_text document
  end.

(** ** Saving the results (lines 437-472) *)

(** [d.get(k, default)] *)
Definition py_get (d : gmap string pyval) (k : string) (dflt : pyval) : pyval :=
  default dflt (d !! k).

(** [bool(v)] *)
Definition py_bool (v : pyval) : bool :=
  match v with
  | VNone => false
  | VInt z => negb (z =? 0)
  | VStr s => PyStr.truthy (Some s)
  | VList [] => false
  | VList (_ :: _) => true
  | VDict [] => false
  | VDict (_ :: _) => true
  end.

(** [len(v)], a [TypeError] for a value without a length. *)
Definition py_len (v : pyval) : res Z :=
  match v with
  | VStr s => Ok (Z.of_nat (String.length s))
  | VList l => Ok (Z.of_nat (length l))
  | VDict items => Ok (Z.of_nat (length items))
  | VNone => Raise "object of type 'NoneType' has no len()"
  | VInt _ => Raise "object of type 'int' has no len()"
  end.

(** One entry of [summary_results] (lines 454-465). *)
Record SummaryEntry := {
  s_position : pyval;
  s_title : pyval;
  s_url : pyval;
  s_domain : pyval;
  s_snippet : pyval;
  s_word_count : pyval;
  s_reading_time : pyval;
  s_headings_count : Z;
  s_has_error : bool;
  s_status_code : pyval
}.

Definition summary_entry (result : gmap string pyval) : res SummaryEntry :=
  headings_count ← py_len (py_get result "headings" (VList []));
  Ok {| s_position := py_get result "position" VNone;
        s_title := py_get result "title" VNone;
        s_url := py_get result "url" VNone;
        s_domain := py_get result "domain" VNone;
        s_snippet := py_get result "snippet" VNone;
        s_word_count := py_get result "word_count" (VInt 0);
        s_reading_time := py_get result "reading_time" (VInt 0);
        s_headings_count := headings_count;
        s_has_error := py_bool (py_get result "error" VNone);
        s_status_code := py_get result "status_code" VNone |}.

(** The loop of lines 453-465. *)
Fixpoint summary_results (results : list (gmap string pyval))
    : res (list SummaryEntry) :=
  match results with
  | [] => Ok []
  | result :: rest =>
      entry ← summary_entry result;
      entries ← summary_results rest;
      Ok (entry :: entries)
  end.

(** [\w] of a [str] pattern, for the code points below 256: what
    [isalnum()] accepts, and the underscore. *)
Definition re_word (c : ascii) : bool :=
  let n := N_of_ascii c in
  ((48 <=? n) && (n <=? 57) || (65 <=? n) && (n <=? 90) || (n =? 95)
   || (97 <=? n) && (n <=? 122) || (n =? 170) || (178 <=? n) && (n <=? 179)
   || (n =? 181) || (185 <=? n) && (n <=? 186) || (188 <=? n) && (n <=? 190)
   || (192 <=? n) && (n <=? 214) || (216 <=? n) && (n <=? 246)
   || (248 <=? n) && (n <=? 255))%N.

(** A character [re.sub(r'[^\w\s-]', '', query)] keeps; [\s] is what
    [isspace()] accepts. *)
Definition kept_char (c : ascii) : bool :=
  re_word c || PyStr.isspace c || Ascii.eqb c "-".

Fixpoint keep_chars (keep : ascii -> bool) (s : string) : string :=
  match s with
  | String c r => if keep c then String c (keep_chars keep r) else keep_chars keep r
  | EmptyString => EmptyString
  end.

(** [s.replace(' ', by)] for a one-character [by] *)
Fixpoint replace_space (by_char : ascii) (s : string) : string :=
  match s with
  | String c r =>
      String (if Ascii.eqb c " " then by_char else c) (replace_space by_char r)
  | EmptyString => EmptyString
  end.

(** Line 444 *)
Definition safe_query (query : string) : string :=
  replace_space "_" (PyStr.strip (keep_chars kept_char query)).

(** The names of the two files, inside [output_dir] (lines 447, 467). *)
Definition detailed_file_name (query timestamp : string) : string :=
  safe_query query +:+ "_" +:+ timestamp +:+ "_detailed.json".
Definition summary_file_name (query timestamp : string) : string :=
  safe_query query +:+ "_" +:+ timestamp +:+ "_summary.json".

(** ** The whole run (lines 474-507) *)

(** [sum(1 for r in detailed_results if not r.get('error'))] *)
Definition successful (detailed_results : list (gmap string pyval)) : Z :=
  Z.of_nat (length (List.filter (fun r => negb (py_bool (py_get r "error" VNone)))
                      detailed_results)).

Definition py_type_name (v : pyval) : string :=
  match v with
  | VNone => "NoneType"
  | VInt _ => "int"
  | VStr _ => "str"
  | VList _ => "list"
  | VDict _ => "dict"
  end.

(** [sum(r.get('word_count', 0) for r in detailed_results)]: the running
    total is an int, and adding anything else to it is a [TypeError]. *)
Fixpoint sum_word_counts (total : Z) (detailed_results : list (gmap string pyval))
    : res Z :=
  match detailed_results with
  | [] => Ok total
  | r :: rest =>
      match py_get r "word_count" (VInt 0) with
      | VInt words => sum_word_counts (total + words) rest
      | v => Raise ("unsupported operand type(s) for +: 'int' and '"
                    +:+ py_type_name v +:+ "'")
      end
  end.

Definition total_words (detailed_results : list (gmap string pyval)) : res Z :=
  sum_word_counts 0 detailed_results.

(** The content-extraction tasks of a run: task [i] opens its own page
    [pages i] and reads the clock [clock i]. *)
Definition run_pages (pages : nat -> res ContentPage) (clock : nat -> string)
    (i : nat) (url title : string) : res (gmap string pyval) :=
  extract_page_content (pages i) (clock i) url title.

(** [run_search_and_scrape].  [setup_browser], [save_results] and [cleanup]
    are the outcomes of the calls of these names; the handler re-raises
    what it logs, and the [finally] cleans up.  The function itself returns
    [None]: the value here is the list it handed to [save_results], [None]
    when it returned before scraping. *)
Definition run_search_and_scrape (urlparse_netloc : string -> res string)
    (setup_browser : res unit) (new_page : res SearchPage) (debug : bool)
    (pages : nat -> res ContentPage) (clock now : nat -> string)
    (save_results : list (gmap string pyval) -> res unit) (cleanup : res unit)
    (query : string) (max_results : Z)
    : res (option (list (gmap string pyval))) :=
  try_finally
    (_ ← setup_browser;
     search_results ← search_google urlparse_netloc new_page debug query max_results;
     match search_results with
     | [] => Ok None
     | _ =>
         let detailed_results :=
           scrape_search_results (run_pages pages clock) now search_results in
         _ ← save_results detailed_results;
         _ ← total_words detailed_results;
         Ok (Some detailed_results)
     end)
    cleanup.

(** [response.status if response else None] (line 320) *)
Definition status_code_of (response : option Z) : pyval :=
  match response with
  | Some status => VInt status
  | None => VNone
  end.

(** The keys [extract_page_content] assigns after creating the record. *)
Definition assigned_keys : list string :=
  ["status_code"; "error"; "text_content"; "word_count"; "reading_time";
   "meta_description"; "headings"].

(** ** More concrete pages *)

Fixpoint repeat_char (n : nat) (c : ascii) : string :=
  match n with
  | O => EmptyString
  | S n' => String c (repeat_char n' c)
  end.

(** A document whose [main] region holds 350 characters and whose body
    holds 50. *)
Definition article_document : Document :=
  {| query_selector := fun selector =>
       if String.eqb selector "main" then Some (repeat_char 350 "a") else None;
     body_inner_text := repeat_char 50 "n" |}.

(** A search page whose navigation fails. *)
Definition unreachable_page : SearchPage :=
  {| sp_goto := fun _ => Raise "net::ERR_NAME_NOT_RESOLVED";
     sp_debug_page_content := fun _ => Ok tt;
     sp_wait_for_selector := fun _ => Ok tt;
     sp_locator_all := fun _ => Ok [];
     sp_close := Ok tt |}.

(** A content page whose navigation fails. *)
Definition unreachable_content_page : ContentPage :=
  {| cp_goto := Raise "net::ERR_CONNECTION_RESET";
     cp_wait_for_load_state := Ok tt;
     cp_evaluate := Ok (Some "never read");
     cp_meta_description := Ok None;
     cp_headings := Ok [];
     cp_close := Ok tt |}.

Definition heading (tag text : string) : Heading :=
  {| h_tag_name := Ok tag; h_text_content := Ok (Some text) |}.

(** A page of 25 headings, [  Section <i>  ] each, and a text of three
    words. *)
Definition long_page : ContentPage :=
  {| cp_goto := Ok (Some 200);
     cp_wait_for_load_state := Ok tt;
     cp_evaluate := Ok (Some "  three small words ");
     cp_meta_description := Ok (Some "A page");
     cp_headings :=
       Ok (map (fun i => heading "h2" ("  Section " +:+ pretty i +:+ "  "))
             (seqZ 1 25));
     cp_close := Ok tt |}.

(** The record extracted from [long_page]. *)
Definition long_page_record : gmap string pyval :=
  extract_in_page long_page "https://example.com/long"
    (default_content "https://example.com/long" "Long" "2024-05-01T10:00:00").

(** What an appended heading looks like. *)
Definition heading_ok (v : pyval) : Prop :=
  exists level text,
    v = VDict [("level", VStr level); ("text", VStr text)]
    /\ (0 < String.length text <= 200)%nat
    /\ exists c r, text = String c r /\ PyStr.isspace c = false.

(** The record extracted from [unreachable_content_page]. *)
Definition unreachable_record : gmap string pyval :=
  <["error" := VStr "Navigation failed: net::ERR_CONNECTION_RESET"]>
    (default_content "https://example.com/" "Example" "2024-05-01T10:00:00").

(** A run in which every content page answers 200 with two words. *)
Definition ok_pages (i : nat) : res ContentPage :=
  Ok (content_page (Some 200) "hello world").

(** What that run extracts for the two sites. *)
Definition two_sites_detailed : list (gmap string pyval) :=
  scrape_search_results (run_pages ok_pages clock) clock [site1_record; site2_record].

(** A candidate makes the cascade raise [e]: counting its matches raises,
    or it has a match and reading the first match raises. *)
Definition raises_with (get : Element -> res (option string)) (result : Node)
    (sel : string) (e : string) : Prop :=
  count (locator result sel) = Raise e
  \/ exists n, count (locator result sel) = Ok n /\ 0 < n
       /\ first_value get result sel = Raise e.

(** A candidate resolves and matches nothing. *)
Definition matches_nothing (result : Node) (sel : string) : Prop :=
  exists n, count (locator result sel) = Ok n /\ n <= 0.

(** A candidate has a match whose first value [v] fails the test. *)
Definition rejected_with (get : Element -> res (option string))
    (accept : option string -> bool) (result : Node) (sel : string)
    (v : option string) : Prop :=
  exists n, count (locator result sel) = Ok n /\ 0 < n
    /\ first_value get result sel = Ok v /\ accept v = false.

(** A node whose [h3] cannot be resolved and whose [h2] holds a title. *)
Definition raising_heading_node : Node :=
  {| locator := fun sel =>
       if String.eqb sel "h3" then Raise "Target closed"
       else if String.eqb sel "h2" then Ok [element (Some "Other") None]
       else Ok [] |}.

(** The headings [extract_page_content] lists for the heading elements it
    goes through: an element whose tag and text are read and whose text is
    not blank gives an entry with that tag and the trimmed text cut at 200
    characters; an element whose tag or text cannot be read, or whose text
    is missing or blank, gives none. *)
Inductive headings_listed : list Heading -> list pyval -> Prop :=
| listed_nil : headings_listed [] []
| listed_entry heading rest entries tag s :
    h_tag_name heading = Ok tag ->
    h_text_content heading = Ok (Some s) ->
    accept_text (Some s) = true ->
    headings_listed rest entries ->
    headings_listed (heading :: rest)
      (VDict [("level", VStr tag); ("text", VStr (PyStr.take 200 (PyStr.strip s)))]
       :: entries)
| listed_no_tag heading rest entries e :
    h_tag_name heading = Raise e ->
    headings_listed rest entries ->
    headings_listed (heading :: rest) entries
| listed_no_text heading rest entries e :
    h_text_content heading = Raise e ->
    headings_listed rest entries ->
    headings_listed (heading :: rest) entries
| listed_blank heading rest entries text :
    h_text_content heading = Ok text ->
    accept_text text = false ->
    headings_listed rest entries ->
    headings_listed (heading :: rest) entries.

(** A page whose headings are, in order: one whose tag cannot be read, a
    blank one, one whose text cannot be read, one without text, and a
    readable one. *)
Definition mixed_headings_page : ContentPage :=
  {| cp_goto := Ok (Some 200);
     cp_wait_for_load_state := Ok tt;
     cp_evaluate := Ok (Some "some text");
     cp_meta_description := Ok None;
     cp_headings :=
       Ok [ {| h_tag_name := Raise "Element is not attached to the DOM";
               h_text_content := Ok (Some "Detached") |};
            heading "h1" "   ";
            {| h_tag_name := Ok "h2";
               h_text_content := Raise "Element is not attached to the DOM" |};
            {| h_tag_name := Ok "h2"; h_text_content := Ok None |};
            heading "h3" "  Kept heading " ];
     cp_close := Ok tt |}.

(** The record extracted from [mixed_headings_page]. *)
Definition mixed_headings_record : gmap string pyval :=
  extract_in_page mixed_headings_page "https://example.com/mixed"
    (default_content "https://example.com/mixed" "Mixed" "2024-05-01T10:00:00").

(** ** Basic facts *)

Example strip_examples :
  PyStr.strip "  a b  " = "a b" /\ PyStr.strip " " = EmptyString.
Proof. split; reflexivity. Qed.

Example pretty_404 : pretty (404 : Z) = "404".
Proof. vm_compute. reflexivity. Qed.

Example netloc_examples :
  UrlParse.netloc_lenient "https://example.com/a?b#c" = Ok "example.com"
  /\ UrlParse.netloc_lenient "http://u:p@h:80/p" = Ok "u:p@h:80"
  /\ UrlParse.netloc_lenient "httpfoo" = Ok EmptyString
  /\ UrlParse.netloc_lenient "http://[::1" = Raise "Invalid IPv6 URL".
Proof. repeat split; reflexivity. Qed.

Example fifteen_nodes_length : length fifteen_nodes = 15%nat.
Proof. reflexivity. Qed.

Example search_page_example :
  search_google UrlParse.netloc_lenient
    (Ok (page_with [site 1; google_node; site 2])) false "rocq prover" 10
  = Ok [ {| position := 1; title := "Site 1";
            url := "https://site1.example.org/";
            snippet := "No description available";
            domain := "site1.example.org"; search_query := "rocq prover" |};
         {| position := 2; title := "Site 2";
            url := "https://site2.example.org/";
            snippet := "No description available";
            domain := "site2.example.org"; search_query := "rocq prover" |} ].
Proof. vm_compute. reflexivity. Qed.

(** ** Sequencing of outcomes *)

Lemma bind_Ok {A B} (f : A -> res B) (a : A) : (Ok a ≫= f) = f a.
Proof. reflexivity. Qed.

Lemma bind_Raise {A B} (f : A -> res B) (e : string) : (Raise e ≫= f) = Raise e.
Proof. reflexivity. Qed.

Lemma bind_Ok_inv {A B} (f : A -> res B) (m : res A) (b : B) :
  (m ≫= f) = Ok b -> exists a, m = Ok a /\ f a = Ok b.
Proof. destruct m as [a|e]; [eauto | discriminate]. Qed.

Ltac res_simpl := rewrite ?bind_Ok, ?bind_Raise in *.

(** ** Substrings *)

Lemma startswith_app p s t :
  PyStr.startswith p s = true -> PyStr.startswith p (s +:+ t) = true.
Proof.
  revert s. induction p as [|a p IH]; intros s H; [reflexivity|].
  destruct s as [|b s]; simpl in *; [discriminate|].
  destruct (Ascii.eqb a b); [now apply IH | discriminate].
Qed.

Lemma contains_app_r p s t :
  PyStr.contains p s = true -> PyStr.contains p (s +:+ t) = true.
Proof.
  induction s as [|c s IH]; intros H.
  - destruct p; simpl in H; [|discriminate]. destruct t; reflexivity.
  - change (PyStr.startswith p (String c s) || PyStr.contains p s = true) in H.
    change (PyStr.startswith p (String c s +:+ t) || PyStr.contains p (s +:+ t) = true).
    apply orb_true_iff in H as [H|H].
    + now rewrite (startswith_app _ _ t H).
    + rewrite (IH H). apply orb_true_r.
Qed.

Lemma contains_app_l p s t :
  PyStr.contains p t = true -> PyStr.contains p (s +:+ t) = true.
Proof.
  intros H. induction s as [|c s IH]; [exact H|].
  change (PyStr.startswith p (String c s +:+ t) || PyStr.contains p (s +:+ t) = true).
  rewrite IH. apply orb_true_r.
Qed.

(** A pattern found in a part of a string is found in the string. *)
Lemma contains_infix p pre s post :
  PyStr.contains p s = true -> PyStr.contains p (pre +:+ s +:+ post) = true.
Proof. intros H. apply contains_app_l, contains_app_r, H. Qed.

Lemma excluded_false_inv u p :
  excluded u = false -> In p excluded_domains -> PyStr.contains p u = false.
Proof.
  unfold excluded. intros H Hp.
  destruct (PyStr.contains p u) eqn:E; [|reflexivity].
  assert (existsb (fun d => PyStr.contains d u) excluded_domains = true) as H'.
  { apply existsb_exists. exists p. split; assumption. }
  congruence.
Qed.

Lemma excluded_true_intro u p :
  In p excluded_domains -> PyStr.contains p u = true -> excluded u = true.
Proof.
  intros Hp H. unfold excluded. apply existsb_exists. exists p. split; assumption.
Qed.

(** ** The loop of [search_google] *)

Section SearchFacts.

Variable urlparse_netloc : string -> res string.
Variable query : string.

Local Abbreviation extract := (extract_result urlparse_netloc query).
Local Abbreviation process := (process_results urlparse_netloc query).
Local Abbreviation accepts := (accepted urlparse_netloc query).

(** What an appended record says about the node it was built from. *)
Lemma extract_result_inv result n r :
  extract result n = Ok (Some r) ->
  exists title_s url_s snippet_v,
    cascade text_content accept_text result title_selectors (Some EmptyString)
      = Ok (Some title_s)
    /\ cascade get_href accept_link result link_selectors (Some EmptyString)
      = Ok (Some url_s)
    /\ cascade text_content accept_text result snippet_selectors (Some EmptyString)
      = Ok snippet_v
    /\ title_s <> EmptyString
    /\ PyStr.startswith "http" url_s = true
    /\ excluded url_s = false
    /\ urlparse_netloc url_s = Ok (domain r)
    /\ position r = Z.of_nat n + 1
    /\ title r = PyStr.strip title_s
    /\ url r = url_s
    /\ search_query r = query.
Proof.
  unfold extract_result. intros H.
  destruct (cascade text_content _ _ title_selectors _) as [t|] eqn:Et; [|discriminate].
  destruct (cascade get_href _ _ _ _) as [u|] eqn:Eu; [|discriminate].
  destruct (cascade text_content _ _ snippet_selectors _) as [sn|] eqn:Es; [|discriminate].
  res_simpl.
  destruct t as [t|]; [|discriminate].
  destruct u as [u|]; [|discriminate].
  destruct (negb (PyStr.truthy (Some t)) || negb (PyStr.truthy (Some u))
            || negb (PyStr.startswith "http" u)) eqn:Ev; [discriminate|].
  destruct (excluded u) eqn:Ex; [discriminate|].
  destruct (urlparse_netloc u) as [d|] eqn:Ed; [|discriminate].
  res_simpl. injection H as <-.
  apply orb_false_iff in Ev as [Ev Eh]. apply orb_false_iff in Ev as [Evt _].
  apply negb_false_iff in Eh, Evt.
  exists t, u, sn. simpl. repeat split; try reflexivity; try assumption.
  intros ->. discriminate.
Qed.

(** Whether an iteration appends does not depend on the length of
    [results]; only the position of the record does. *)
Lemma extract_result_shift result n m r :
  extract result n = Ok (Some r) ->
  exists r', extract result m = Ok (Some r').
Proof.
  unfold extract_result.
  destruct (cascade text_content _ _ title_selectors _) as [t|]; [|discriminate].
  destruct (cascade get_href _ _ _ _) as [u|]; [|discriminate].
  destruct (cascade text_content _ _ snippet_selectors _) as [sn|]; [|discriminate].
  res_simpl.
  destruct t as [t|]; [|discriminate].
  destruct u as [u|]; [|discriminate].
  destruct (_ || _ || _); [discriminate|].
  destruct (excluded u); [discriminate|].
  destruct (urlparse_netloc u); [|discriminate].
  res_simpl. eauto.
Qed.

Lemma accepted_true result n :
  accepts result = true <-> exists r, extract result n = Ok (Some r).
Proof.
  unfold accepted. split.
  - destruct (extract result 0) as [[r|]|] eqn:E; try discriminate.
    intros _. eapply extract_result_shift, E.
  - intros [r Hr]. destruct (extract_result_shift _ _ 0%nat _ Hr) as [r' ->].
    reflexivity.
Qed.

Lemma process_results_skip result rest results :
  accepts result = false ->
  process (result :: rest) results = process rest results.
Proof.
  intros H. simpl.
  destruct (extract result (length results)) as [[r|]|] eqn:E; try reflexivity.
  assert (accepts result = true) by (apply (accepted_true _ (length results)); eauto).
  congruence.
Qed.

(** The loop only appends: the output is [results] followed by one record
    per accepted node, each built by an iteration that saw as many results
    as precede it. *)
Lemma process_results_spec nodes : forall results,
  exists new,
    process nodes results = (results ++ new)%list
    /\ length new = length (List.filter accepts nodes)
    /\ forall i r, new !! i = Some r ->
         exists result, In result nodes
           /\ extract result (length results + i) = Ok (Some r).
Proof.
  induction nodes as [|result rest IH]; intros results.
  - exists []. rewrite app_nil_r. repeat split. intros i r H. destruct i; discriminate.
  - simpl process_results. simpl List.filter.
    destruct (extract result (length results)) as [[r|]|] eqn:E.
    + assert (accepts result = true) as ->
        by (apply (accepted_true _ (length results)); eauto).
      destruct (IH (results ++ [r])%list) as (new & Hp & Hl & Hn).
      exists (r :: new). rewrite Hp, <- app_assoc. simpl. repeat split.
      * now rewrite Hl.
      * intros [|i] r0 Hi.
        -- injection Hi as <-. exists result. split; [now left|].
           now rewrite Nat.add_0_r.
        -- destruct (Hn i r0 Hi) as (nd & Hin & He). exists nd. split; [now right|].
           rewrite length_app in He. simpl in He.
           now replace (length results + S i)%nat with (length results + 1 + i)%nat by lia.
    + assert (accepts result = false) as ->.
      { destruct (accepts result) eqn:A; [|reflexivity].
        apply (accepted_true _ (length results)) in A as [r Hr]. congruence. }
      destruct (IH results) as (new & Hp & Hl & Hn).
      exists new. repeat split; [assumption..|].
      intros i r Hi. destruct (Hn i r Hi) as (nd & Hin & He). exists nd.
      split; [now right | assumption].
    + assert (accepts result = false) as ->.
      { destruct (accepts result) eqn:A; [|reflexivity].
        apply (accepted_true _ (length results)) in A as [r Hr]. congruence. }
      destruct (IH results) as (new & Hp & Hl & Hn).
      exists new. repeat split; [assumption..|].
      intros i r Hi. destruct (Hn i r Hi) as (nd & Hin & He). exists nd.
      split; [now right | assumption].
Qed.

End SearchFacts.

(** ** [search_google] as a whole *)

Lemma slice_to_nil {A} (stop : Z) : PyStr.slice_to (@nil A) stop = [].
Proof. unfold PyStr.slice_to. destruct (stop <? 0); apply firstn_nil. Qed.

Lemma slice_to_length {A} (l : list A) (stop : Z) :
  0 <= stop -> Z.of_nat (length (PyStr.slice_to l stop)) <= stop.
Proof.
  intros H. unfold PyStr.slice_to.
  destruct (stop <? 0) eqn:E; [apply Z.ltb_lt in E; lia|].
  rewrite length_firstn. lia.
Qed.

Lemma slice_to_nonneg {A} (l : list A) (stop : Z) :
  0 <= stop -> PyStr.slice_to l stop = firstn (Z.to_nat stop) l.
Proof.
  intros H. unfold PyStr.slice_to.
  destruct (stop <? 0) eqn:E; [apply Z.ltb_lt in E; lia | reflexivity].
Qed.

Lemma filter_length_le {A} (f : A -> bool) (l : list A) :
  (length (List.filter f l) <= length l)%nat.
Proof. induction l as [|x l IH]; simpl; [lia|]. destruct (f x); simpl; lia. Qed.

Section SearchGoogleFacts.

Variable urlparse_netloc : string -> res string.

(** Whatever [search_google] returns is the loop's output on the sliced
    list of some raw nodes (none, when the loop is never reached). *)
Lemma search_google_inv new_page debug query max_results out :
  search_google urlparse_netloc new_page debug query max_results = Ok out ->
  exists nodes,
    out = process_results urlparse_netloc query (PyStr.slice_to nodes max_results) [].
Proof.
  unfold search_google. intros H.
  destruct new_page as [page|e]; [|discriminate]. res_simpl.
  unfold try_finally in H. destruct (sp_close page); [|discriminate].
  assert (out = [] -> exists nodes,
    out = process_results urlparse_netloc query (PyStr.slice_to nodes max_results) [])
    as Hnil.
  { intros ->. exists []. now rewrite slice_to_nil. }
  unfold try_except in H.
  destruct (search_google_try _ _ _ _ _) as [rs|e] eqn:Et.
  - injection H as ->. unfold search_google_try in Et.
    destruct (sp_goto page _); [|discriminate]. res_simpl.
    destruct (debug_page_content debug page "after_navigation"); [|discriminate]. res_simpl.
    destruct (debug_page_content debug page "after_consent"); [|discriminate]. res_simpl.
    destruct (wait_for_container page result_selectors).
    + destruct (locate_results page search_result_selectors) as [ns|]; [|discriminate].
      res_simpl. destruct ns as [|n ns].
      * destruct (debug_page_content debug page _); [|discriminate].
        res_simpl. injection Et as <-. now apply Hnil.
      * injection Et as <-. now exists (n :: ns).
    + destruct (debug_page_content debug page _); [|discriminate].
      res_simpl. injection Et as <-. now apply Hnil.
  - destruct (debug_page_content debug page "error_state"); [|discriminate].
    res_simpl. injection H as <-. now apply Hnil.
Qed.

(** On a page that loads and yields raw nodes, [search_google] returns
    the loop's output on their slice. *)
Lemma search_google_yields page debug query nodes max_results :
  page_yields page debug query nodes ->
  search_google urlparse_netloc (Ok page) debug query max_results
  = Ok (process_results urlparse_netloc query (PyStr.slice_to nodes max_results) []).
Proof.
  intros (Hgoto & Hdebug & Hcont & Hloc & Hclose).
  unfold search_google. res_simpl. unfold try_finally. rewrite Hclose.
  unfold search_google_try. rewrite Hgoto. res_simpl.
  rewrite !Hdebug. res_simpl.
  destruct (wait_for_container page result_selectors); [|congruence].
  rewrite Hloc. res_simpl.
  destruct nodes as [|n ns]; [|reflexivity].
  rewrite ?Hdebug. res_simpl. now rewrite slice_to_nil.
Qed.

(** Every record of the output was built by an iteration that had as many
    results as the record has predecessors. *)
Lemma search_google_record new_page debug query max_results out i r :
  search_google urlparse_netloc new_page debug query max_results = Ok out ->
  out !! i = Some r ->
  exists result, extract_result urlparse_netloc query result i = Ok (Some r).
Proof.
  intros H Hi. destruct (search_google_inv _ _ _ _ _ H) as [nodes ->].
  destruct (process_results_spec urlparse_netloc query
              (PyStr.slice_to nodes max_results) []) as (new & Hp & _ & Hn).
  rewrite Hp in Hi. simpl in Hi.
  destruct (Hn i r Hi) as (result & _ & He). now exists result.
Qed.

Lemma search_google_length_le new_page debug query max_results out :
  search_google urlparse_netloc new_page debug query max_results = Ok out ->
  0 <= max_results -> Z.of_nat (length out) <= max_results.
Proof.
  intros H Hm. destruct (search_google_inv _ _ _ _ _ H) as [nodes ->].
  destruct (process_results_spec urlparse_netloc query
              (PyStr.slice_to nodes max_results) []) as (new & -> & Hl & _).
  simpl. rewrite Hl.
  pose proof (filter_length_le (accepted urlparse_netloc query)
                (PyStr.slice_to nodes max_results)).
  pose proof (slice_to_length nodes max_results Hm). lia.
Qed.

End SearchGoogleFacts.

Lemma positions_dense (out : list SearchResult) :
  (forall i r, out !! i = Some r -> position r = Z.of_nat i + 1) ->
  position <$> out = seqZ 1 (Z.of_nat (length out)).
Proof.
  intros H. apply list_eq. intros i. rewrite list_lookup_fmap.
  destruct (out !! i) as [r|] eqn:E; simpl.
  - rewrite (H i r E). symmetry. rewrite Z.add_comm. apply lookup_seqZ_lt.
    apply lookup_lt_Some in E. lia.
  - symmetry. apply lookup_seqZ_ge. apply lookup_ge_None in E. lia.
Qed.

(** ** The search-result extractor: statements of the specification *)

Lemma page_with_yields nodes query :
  nodes <> [] -> page_yields (page_with nodes) false query nodes.
Proof.
  intros Hn. unfold page_yields. repeat split; try reflexivity; try discriminate.
  destruct nodes as [|n ns]; [congruence | reflexivity].
Qed.

(** C2, counterexample: fifteen raw nodes, two of them of Google's own and
    thirteen qualifying, with [max_results = 10]: the two excluded nodes are
    among the first ten, and the output has eight records, not ten. *)
Lemma search_google_fifteen_nodes_eight :
  length fifteen_nodes = 15%nat
  /\ excluded "https://www.google.com/maps" = true
  /\ map (accepted UrlParse.netloc_lenient "q") fifteen_nodes
     = (false :: false :: repeat true 13)%list
  /\ exists out,
       search_google UrlParse.netloc_lenient (Ok (page_with fifteen_nodes)) false "q" 10
       = Ok out
       /\ length out = 8%nat.
Proof.
  split; [reflexivity|]. split; [vm_compute; reflexivity|].
  split; [vm_compute; reflexivity|].
  eexists. split; [vm_compute; reflexivity | reflexivity].
Qed.

(** C2, amended: on a page that loads and yields raw nodes, the output has
    one record per accepted node among the first [max_results] raw nodes
    (the slice [search_results[:max_results]]); with fifteen raw nodes and
    [max_results = 10] it has ten records exactly when each of the first
    ten raw nodes is accepted. *)
Theorem search_google_length_of_slice urlparse_netloc page debug query nodes max_results :
  page_yields page debug query nodes ->
  exists out,
    search_google urlparse_netloc (Ok page) debug query max_results = Ok out
    /\ length out
       = length (List.filter (accepted urlparse_netloc query)
                   (PyStr.slice_to nodes max_results))
    /\ (max_results = 10 -> length nodes = 15%nat ->
        (length out = 10%nat
         <-> forallb (accepted urlparse_netloc query) (firstn 10 nodes) = true)).
Proof.
  intros Hy. eexists. split; [apply search_google_yields, Hy|].
  destruct (process_results_spec urlparse_netloc query
              (PyStr.slice_to nodes max_results) []) as (new & -> & Hl & _).
  simpl. split; [exact Hl|].
  intros -> Hn. rewrite Hl. change (PyStr.slice_to nodes 10) with (firstn 10 nodes).
  assert (length (firstn 10 nodes) = 10%nat) as Hten by (rewrite length_firstn; lia).
  revert Hten. generalize (firstn 10 nodes) as l. generalize 10%nat as k.
  intros k l. revert k. induction l as [|x l IH]; intros k Hk; simpl in *.
  - subst k. tauto.
  - destruct k as [|k]; [discriminate|]. injection Hk as Hk.
    destruct (accepted urlparse_netloc query x); simpl.
    + rewrite <- (IH k Hk). split; intros; lia.
    + pose proof (filter_length_le (accepted urlparse_netloc query) l).
      split; [intros; lia | discriminate].
Qed.

Lemma search_google_length_of_slice_witness :
  page_yields (page_with fifteen_nodes_tail) false "q" fifteen_nodes_tail
  /\ exists out,
       search_google UrlParse.netloc_lenient (Ok (page_with fifteen_nodes_tail)) false "q" 10
       = Ok out
       /\ length out
          = length (List.filter (accepted UrlParse.netloc_lenient "q")
                      (PyStr.slice_to fifteen_nodes_tail 10))
       /\ (10 = 10 -> length fifteen_nodes_tail = 15%nat ->
           (length out = 10%nat
            <-> forallb (accepted UrlParse.netloc_lenient "q")
                  (firstn 10 fifteen_nodes_tail) = true)).
Proof.
  split.
  - apply page_with_yields. discriminate.
  - apply (search_google_length_of_slice UrlParse.netloc_lenient
             (page_with fifteen_nodes_tail) false "q" fifteen_nodes_tail 10).
    apply page_with_yields. discriminate.
Defined.

Example search_google_fifteen_nodes_tail_ten :
  exists out,
    search_google UrlParse.netloc_lenient (Ok (page_with fifteen_nodes_tail)) false "q" 10
    = Ok out
    /\ length out = 10%nat.
Proof. eexists. split; [vm_compute; reflexivity | reflexivity]. Qed.

(** C4, counterexample: with [max_results = -1] the slice drops the last
    of three raw nodes and the output has two records, more than
    [max_results]. *)
Lemma search_google_negative_max :
  exists out,
    search_google UrlParse.netloc_lenient (Ok (page_with three_sites)) false "q" (-1)
    = Ok out
    /\ length out = 2%nat
    /\ Z.of_nat (length out) > -1.
Proof. eexists. split; [vm_compute; reflexivity|]. split; [reflexivity | simpl; lia]. Qed.

(** C4, amended: for every search page, the output has at most
    [max_results] records whenever [max_results] is not negative, and for
    every [max_results] the positions of the output are exactly
    [1, 2, ..., len(output)] in order. *)
Theorem search_google_positions_dense urlparse_netloc new_page debug query max_results out :
  search_google urlparse_netloc new_page debug query max_results = Ok out ->
  (0 <= max_results -> Z.of_nat (length out) <= max_results)
  /\ position <$> out = seqZ 1 (Z.of_nat (length out)).
Proof.
  intros H. split.
  - apply (search_google_length_le _ _ _ _ _ _ H).
  - apply positions_dense. intros i r Hi.
    destruct (search_google_record _ _ _ _ _ _ _ _ H Hi) as (result & He).
    apply extract_result_inv in He as (t & u & sn & _ & _ & _ & _ & _ & _ & _ & Hp & _).
    exact Hp.
Qed.

Lemma search_google_positions_dense_witness :
  exists out,
    search_google UrlParse.netloc_lenient (Ok (page_with fifteen_nodes)) false "q" 10 = Ok out
    /\ (0 <= 10 -> Z.of_nat (length out) <= 10)
    /\ position <$> out = seqZ 1 (Z.of_nat (length out)).
Proof.
  eexists. split; [vm_compute; reflexivity|].
  apply (search_google_positions_dense UrlParse.netloc_lenient
           (Ok (page_with fifteen_nodes)) false "q" 10).
  vm_compute. reflexivity.
Defined.

(** What the validation of lines 260-266 leaves of a url in the output. *)
Lemma search_google_url_facts urlparse_netloc new_page debug query max_results out r :
  search_google urlparse_netloc new_page debug query max_results = Ok out ->
  In r out ->
  PyStr.startswith "http" (url r) = true
  /\ excluded (url r) = false
  /\ urlparse_netloc (url r) = Ok (domain r).
Proof.
  intros H Hr. apply list_elem_of_In, list_elem_of_lookup in Hr as [i Hi].
  destruct (search_google_record _ _ _ _ _ _ _ _ H Hi) as (result & He).
  apply extract_result_inv in He
    as (t & u & sn & _ & _ & _ & _ & Hh & Hx & Hd & _ & _ & Hu & _).
  subst u. repeat split; assumption.
Qed.

(** A part of a url that is not excluded contains no excluded substring. *)
Lemma infix_not_excluded u pre d post :
  excluded u = false -> u = pre +:+ d +:+ post ->
  forall p, In p excluded_domains -> PyStr.contains p d = false.
Proof.
  intros Hx Heq p Hp.
  destruct (PyStr.contains p d) eqn:E; [|reflexivity].
  apply (contains_infix p pre _ post) in E. rewrite <- Heq in E.
  rewrite (excluded_false_inv _ _ Hx Hp) in E. discriminate.
Qed.

(** C5, counterexample: a link whose authority is [goo<TAB>gle.com]
    contains none of the excluded substrings, so its record is kept; the
    network location [urlparse] derives for it is [google.com], a member of
    the exclusion set.  A relative link [httpd-manual.html] starts with
    [http] and is kept too, with an empty domain. *)
Lemma search_google_tab_domain :
  (excluded tab_url = false
   /\ search_google UrlParse.netloc_lenient (Ok (page_with [tab_node])) false "q" 10
      = Ok [ {| position := 1; title := "News"; url := tab_url;
                snippet := "No description available";
                domain := "google.com"; search_query := "q" |} ]
   /\ In "google.com" excluded_domains)
  /\ search_google UrlParse.netloc_lenient (Ok (page_with [relative_node])) false "q" 10
     = Ok [ {| position := 1; title := "Manual"; url := "httpd-manual.html";
               snippet := "No description available";
               domain := EmptyString; search_query := "q" |} ].
Proof.
  split; [|vm_compute; reflexivity].
  split; [vm_compute; reflexivity|]. split; [vm_compute; reflexivity|].
  left. reflexivity.
Qed.

(** C5, amended: every record of the output has a url that starts with
    [http] and contains none of the excluded substrings; its domain is the
    network location [urlparse] derives from the url, and wherever that
    network location stands verbatim inside the url it contains none of the
    excluded substrings either. *)
Theorem search_google_urls_not_excluded urlparse_netloc new_page debug query max_results out r :
  search_google urlparse_netloc new_page debug query max_results = Ok out ->
  In r out ->
  PyStr.startswith "http" (url r) = true
  /\ excluded (url r) = false
  /\ urlparse_netloc (url r) = Ok (domain r)
  /\ (forall pre post, url r = pre +:+ domain r +:+ post ->
      forall p, In p excluded_domains -> PyStr.contains p (domain r) = false).
Proof.
  intros H Hr.
  destruct (search_google_url_facts _ _ _ _ _ _ _ H Hr) as (Hh & Hx & Hd).
  repeat split; try assumption.
  intros pre post Heq p Hp. exact (infix_not_excluded _ _ _ _ Hx Heq p Hp).
Qed.

Lemma search_google_urls_not_excluded_witness :
  (search_google UrlParse.netloc_lenient (Ok (page_with [site 1])) false "q" 10
   = Ok [site1_record]
   /\ In site1_record [site1_record])
  /\ PyStr.startswith "http" (url site1_record) = true
  /\ excluded (url site1_record) = false
  /\ UrlParse.netloc_lenient (url site1_record) = Ok (domain site1_record)
  /\ (forall pre post, url site1_record = pre +:+ domain site1_record +:+ post ->
      forall p, In p excluded_domains -> PyStr.contains p (domain site1_record) = false).
Proof.
  split.
  - split; [vm_compute; reflexivity | left; reflexivity].
  - apply (search_google_urls_not_excluded UrlParse.netloc_lenient
             (Ok (page_with [site 1])) false "q" 10 [site1_record] site1_record).
    + vm_compute. reflexivity.
    + left. reflexivity.
Defined.

(** C7: a result whose only heading holds a single space passes the
    validation of line 260, which tests the untrimmed title, and is appended
    with the trimmed title: the empty string. *)
Theorem search_google_blank_title :
  cascade text_content accept_text blank_title_node title_selectors (Some EmptyString)
  = Ok (Some " ")
  /\ search_google UrlParse.netloc_lenient (Ok (page_with [blank_title_node])) false "q" 10
     = Ok [ {| position := 1; title := EmptyString; url := "https://example.com/";
               snippet := "No description available";
               domain := "example.com"; search_query := "q" |} ].
Proof. split; vm_compute; reflexivity. Qed.

(** C10: the exclusion test is a substring test on the whole url.  A node
    whose link contains one of the excluded substrings anywhere is not
    accepted and the loop passes over it; no record of the output has a url
    containing any of them. *)
Theorem excluded_url_omitted urlparse_netloc query :
  (forall result u p,
     cascade get_href accept_link result link_selectors (Some EmptyString) = Ok (Some u) ->
     In p excluded_domains -> PyStr.contains p u = true ->
     accepted urlparse_netloc query result = false
     /\ forall rest results,
          process_results urlparse_netloc query (result :: rest) results
          = process_results urlparse_netloc query rest results)
  /\ (forall new_page debug max_results out r p,
        search_google urlparse_netloc new_page debug query max_results = Ok out ->
        In r out -> In p excluded_domains -> PyStr.contains p (url r) = false).
Proof.
  split.
  - intros result u p Hu Hp Hc.
    assert (accepted urlparse_netloc query result = false) as Ha.
    { destruct (accepted urlparse_netloc query result) eqn:A; [|reflexivity].
      apply (accepted_true _ _ _ 0%nat) in A as [r Hr].
      apply extract_result_inv in Hr
        as (t & u' & sn & _ & Hu' & _ & _ & _ & Hx & _).
      rewrite Hu in Hu'. injection Hu' as <-.
      rewrite (excluded_true_intro _ _ Hp Hc) in Hx. discriminate. }
    split; [exact Ha|]. intros rest results. now apply process_results_skip.
  - intros new_page debug max_results out r p H Hr Hp.
    destruct (search_google_url_facts _ _ _ _ _ _ _ H Hr) as (_ & Hx & _).
    apply (excluded_false_inv _ _ Hx Hp).
Qed.

Lemma excluded_url_omitted_witness :
  (cascade get_href accept_link referral_node link_selectors (Some EmptyString)
   = Ok (Some referral_url)
   /\ In "google.com" excluded_domains
   /\ PyStr.contains "google.com" referral_url = true
   /\ UrlParse.netloc_lenient referral_url = Ok "example.org")
  /\ accepted UrlParse.netloc_lenient "q" referral_node = false
  /\ forall rest results,
       process_results UrlParse.netloc_lenient "q" (referral_node :: rest) results
       = process_results UrlParse.netloc_lenient "q" rest results.
Proof.
  split.
  - repeat split; try (vm_compute; reflexivity). left. reflexivity.
  - apply (proj1 (excluded_url_omitted UrlParse.netloc_lenient "q")
             referral_node referral_url "google.com").
    + vm_compute. reflexivity.
    + left. reflexivity.
    + vm_compute. reflexivity.
Defined.

Example search_google_referral_omitted :
  search_google UrlParse.netloc_lenient
    (Ok (page_with [referral_node; site 1])) false "q" 10
  = Ok [ {| position := 1; title := "Site 1"; url := "https://site1.example.org/";
            snippet := "No description available";
            domain := "site1.example.org"; search_query := "q" |} ].
Proof. vm_compute. reflexivity. Qed.

(** ** The selector cascade *)

Section CascadeFacts.

Variable get : Element -> res (option string).
Variable accept : option string -> bool.
Variable result : Node.

Lemma cascade_cons_qualifies sel rest cur v :
  qualifies_with get accept result sel v ->
  cascade get accept result (sel :: rest) cur = Ok v.
Proof.
  intros (n & Hc & Hn & Hv & Ha). simpl. rewrite Hc. res_simpl.
  apply Z.ltb_lt in Hn. rewrite Hn.
  unfold first_value in Hv. rewrite Hv. res_simpl. now rewrite Ha.
Qed.

Lemma cascade_cons_passed_over sel rest cur :
  passed_over get accept result sel ->
  exists cur',
    cascade get accept result (sel :: rest) cur = cascade get accept result rest cur'
    /\ (cur' = cur \/ (first_value get result sel = Ok cur' /\ accept cur' = false)).
Proof.
  intros (n & Hc & [Hn | (v & Hv & Ha)]).
  - exists cur. simpl. rewrite Hc. res_simpl.
    assert ((0 <? n) = false) as -> by (apply Z.ltb_ge; lia). auto.
  - simpl. rewrite Hc. res_simpl. destruct (0 <? n).
    + exists v. unfold first_value in Hv. rewrite Hv. res_simpl. rewrite Ha. auto.
    + exists cur. auto.
Qed.

(** The candidates before the first qualifying one do not matter, nor do
    the candidates after it. *)
Lemma cascade_first_qualifying pre sel post cur v :
  Forall (passed_over get accept result) pre ->
  qualifies_with get accept result sel v ->
  cascade get accept result (pre ++ sel :: post) cur = Ok v.
Proof.
  intros Hpre Hq. revert cur.
  induction Hpre as [|s pre Hs _ IH]; intros cur.
  - apply cascade_cons_qualifies, Hq.
  - rewrite <- app_comm_cons.
    destruct (cascade_cons_passed_over s (pre ++ sel :: post)%list cur Hs)
      as (cur' & Hc & _).
    rewrite Hc. apply IH.
Qed.

(** When no candidate qualifies the cascade hands back what the variable
    last held: its initial value, or the rejected first-match value of a
    candidate. *)
Lemma cascade_none_qualifying sels : forall cur,
  Forall (passed_over get accept result) sels ->
  exists w,
    cascade get accept result sels cur = Ok w
    /\ (w = cur
        \/ exists sel, In sel sels
             /\ first_value get result sel = Ok w /\ accept w = false).
Proof.
  induction sels as [|s sels IH]; intros cur Hall.
  - exists cur. auto.
  - apply Forall_cons in Hall as [Hs Hall].
    destruct (cascade_cons_passed_over s sels cur Hs) as (cur' & -> & Hcur').
    destruct (IH cur' Hall) as (w & Hw & Hor). exists w. split; [exact Hw|].
    destruct Hor as [-> | (sel & Hin & Hv & Ha)].
    + destruct Hcur' as [-> | [Hv Ha]]; [now left|].
      right. exists s. split; [now left | auto].
    + right. exists sel. split; [now right | auto].
Qed.

End CascadeFacts.

(** C6, counterexample.  On a node whose only heading is blank no
    candidate satisfies the predicate, and the cascade returns the blank
    text where the specification's resolver returns absent.  On a node
    whose first [h3] is blank and second is not, [h3] is the earliest
    candidate with a match satisfying the predicate, and the cascade returns
    the text of the [h2]. *)
Lemma cascade_differs_from_resolve_spec :
  (cascade text_content accept_text blank_heading_node title_selectors (Some EmptyString)
   = Ok (Some " ")
   /\ resolve_spec (match_values text_content blank_heading_node) accept_text
        title_selectors = None)
  /\ (cascade text_content accept_text two_heading_node title_selectors (Some EmptyString)
      = Ok (Some "Other")
      /\ resolve_spec (match_values text_content two_heading_node) accept_text
           title_selectors = Some (Some "Real")).
Proof. repeat split; vm_compute; reflexivity. Qed.

Section CascadeCases.

Variable get : Element -> res (option string).
Variable accept : option string -> bool.
Variable result : Node.

Lemma cascade_cons_raises sel rest cur e :
  raises_with get result sel e ->
  cascade get accept result (sel :: rest) cur = Raise e.
Proof.
  intros [Hc | (n & Hc & Hn & Hv)]; simpl; rewrite Hc; res_simpl; [reflexivity|].
  apply Z.ltb_lt in Hn. rewrite Hn.
  unfold first_value in Hv. rewrite Hv. reflexivity.
Qed.

Lemma cascade_cons_nothing sel rest cur :
  matches_nothing result sel ->
  cascade get accept result (sel :: rest) cur = cascade get accept result rest cur.
Proof.
  intros (n & Hc & Hn). simpl. rewrite Hc. res_simpl.
  assert ((0 <? n) = false) as -> by (apply Z.ltb_ge; lia). reflexivity.
Qed.

Lemma cascade_cons_rejected sel rest cur v :
  rejected_with get accept result sel v ->
  cascade get accept result (sel :: rest) cur = cascade get accept result rest v.
Proof.
  intros (n & Hc & Hn & Hv & Ha). simpl. rewrite Hc. res_simpl.
  apply Z.ltb_lt in Hn. rewrite Hn.
  unfold first_value in Hv. rewrite Hv. res_simpl. now rewrite Ha.
Qed.

Lemma cascade_all_nothing sels cur :
  Forall (matches_nothing result) sels ->
  cascade get accept result sels cur = Ok cur.
Proof.
  induction 1 as [|s sels Hs _ IH]; [reflexivity|].
  now rewrite (cascade_cons_nothing _ _ _ Hs).
Qed.

(** Passing over the candidates of a prefix leaves the rest of the
    cascade to run from some value of the variable. *)
Lemma cascade_skip_prefix pre rest cur :
  Forall (passed_over get accept result) pre ->
  exists cur',
    cascade get accept result (pre ++ rest) cur = cascade get accept result rest cur'.
Proof.
  intros Hpre. revert cur. induction Hpre as [|s pre Hs _ IH]; intros cur.
  - now exists cur.
  - rewrite <- app_comm_cons.
    destruct (cascade_cons_passed_over get accept result s (pre ++ rest)%list cur Hs)
      as (cur1 & -> & _).
    apply IH.
Qed.

Lemma cascade_raising_candidate pre sel post cur e :
  Forall (passed_over get accept result) pre ->
  raises_with get result sel e ->
  cascade get accept result (pre ++ sel :: post) cur = Raise e.
Proof.
  intros Hpre Hr.
  destruct (cascade_skip_prefix pre (sel :: post) cur Hpre) as [cur' ->].
  now apply cascade_cons_raises.
Qed.

Lemma cascade_last_rejected pre sel post cur v :
  Forall (passed_over get accept result) pre ->
  rejected_with get accept result sel v ->
  Forall (matches_nothing result) post ->
  cascade get accept result (pre ++ sel :: post) cur = Ok v.
Proof.
  intros Hpre Hr Hpost.
  destruct (cascade_skip_prefix pre (sel :: post) cur Hpre) as [cur' ->].
  rewrite (cascade_cons_rejected _ _ _ _ Hr). now apply cascade_all_nothing.
Qed.

Lemma matches_nothing_passed_over sel :
  matches_nothing result sel -> passed_over get accept result sel.
Proof. intros (n & Hc & Hn). exists n. auto. Qed.

Lemma rejected_passed_over sel v :
  rejected_with get accept result sel v -> passed_over get accept result sel.
Proof. intros (n & Hc & Hn & Hv & Ha). exists n. split; [exact Hc|]. right. eauto. Qed.

(** Every candidate list, on every node, is of one of four kinds. *)
Lemma cascade_exhaustive sels :
  (exists pre sel post v,
     sels = (pre ++ sel :: post)%list
     /\ Forall (passed_over get accept result) pre
     /\ qualifies_with get accept result sel v)
  \/ (exists pre sel post e,
        sels = (pre ++ sel :: post)%list
        /\ Forall (passed_over get accept result) pre
        /\ raises_with get result sel e)
  \/ (exists pre sel post v,
        sels = (pre ++ sel :: post)%list
        /\ Forall (passed_over get accept result) pre
        /\ rejected_with get accept result sel v
        /\ Forall (matches_nothing result) post)
  \/ Forall (matches_nothing result) sels.
Proof.
  induction sels as [|s rest IH]; [right; right; right; constructor|].
  destruct (count (locator result s)) as [n|e] eqn:Ec.
  2:{ right. left. exists [], s, rest, e. repeat split; [constructor | now left]. }
  destruct (Z.le_gt_cases n 0) as [Hn | Hn].
  { assert (matches_nothing result s) as Hs by (exists n; auto).
    pose proof (matches_nothing_passed_over s Hs) as Hp.
    destruct IH as [(pre & sel & post & v & -> & Hpre & Hq)
                   | [(pre & sel & post & e & -> & Hpre & Hq)
                     | [(pre & sel & post & v & -> & Hpre & Hq & Hpost) | Hall]]].
    - left. exists (s :: pre), sel, post, v. repeat split; [now constructor | exact Hq].
    - right. left. exists (s :: pre), sel, post, e.
      repeat split; [now constructor | exact Hq].
    - right. right. left. exists (s :: pre), sel, post, v.
      repeat split; [now constructor | exact Hq | exact Hpost].
    - right. right. right. now constructor. }
  destruct (first_value get result s) as [v|e] eqn:Ev.
  2:{ right. left. exists [], s, rest, e.
      repeat split; [constructor | right; exists n; auto]. }
  destruct (accept v) eqn:Ea.
  { left. exists [], s, rest, v. repeat split; [constructor | exists n; auto]. }
  assert (rejected_with get accept result s v) as Hs by (exists n; auto).
  pose proof (rejected_passed_over s v Hs) as Hp.
  destruct IH as [(pre & sel & post & v' & -> & Hpre & Hq)
                 | [(pre & sel & post & e & -> & Hpre & Hq)
                   | [(pre & sel & post & v' & -> & Hpre & Hq & Hpost) | Hall]]].
  - left. exists (s :: pre), sel, post, v'. repeat split; [now constructor | exact Hq].
  - right. left. exists (s :: pre), sel, post, e.
    repeat split; [now constructor | exact Hq].
  - right. right. left. exists (s :: pre), sel, post, v'.
    repeat split; [now constructor | exact Hq | exact Hpost].
  - right. right. left. exists [], s, rest, v.
    repeat split; [constructor | exact Hs | exact Hall].
Qed.

End CascadeCases.

(** C6, amended: for every node, getter, acceptance test and candidate
    list, the cascade reads only the first match of each candidate, in
    order.  It returns the first match's value of the earliest candidate
    that has a match and whose first match passes the test, and permuting
    the candidates after that one does not change the outcome.  A candidate
    whose count or first-match read raises before any has qualified makes
    the cascade raise that exception.  When every candidate resolves and
    none qualifies it returns the value its variable last held: the rejected
    first-match value of the last candidate that had a match, or the initial
    value when none had; a value that fails the test whenever the initial
    value does.  Every node and candidate list is of one of these kinds. *)
Theorem cascade_earliest_first_match get accept result :
  (forall pre sel post cur v,
     Forall (passed_over get accept result) pre ->
     qualifies_with get accept result sel v ->
     cascade get accept result (pre ++ sel :: post) cur = Ok v
     /\ forall post', Permutation post post' ->
          cascade get accept result (pre ++ sel :: post') cur
          = cascade get accept result (pre ++ sel :: post) cur)
  /\ (forall sels cur,
        Forall (passed_over get accept result) sels ->
        exists w,
          cascade get accept result sels cur = Ok w
          /\ (w = cur
              \/ exists sel, In sel sels
                   /\ first_value get result sel = Ok w /\ accept w = false)
          /\ (accept cur = false -> accept w = false))
  /\ (forall pre sel post cur e,
        Forall (passed_over get accept result) pre ->
        raises_with get result sel e ->
        cascade get accept result (pre ++ sel :: post) cur = Raise e)
  /\ (forall pre sel post cur v,
        Forall (passed_over get accept result) pre ->
        rejected_with get accept result sel v ->
        Forall (matches_nothing result) post ->
        cascade get accept result (pre ++ sel :: post) cur = Ok v)
  /\ (forall sels cur,
        Forall (matches_nothing result) sels ->
        cascade get accept result sels cur = Ok cur)
  /\ (forall sels,
        (exists pre sel post v,
           sels = (pre ++ sel :: post)%list
           /\ Forall (passed_over get accept result) pre
           /\ qualifies_with get accept result sel v)
        \/ (exists pre sel post e,
              sels = (pre ++ sel :: post)%list
              /\ Forall (passed_over get accept result) pre
              /\ raises_with get result sel e)
        \/ (exists pre sel post v,
              sels = (pre ++ sel :: post)%list
              /\ Forall (passed_over get accept result) pre
              /\ rejected_with get accept result sel v
              /\ Forall (matches_nothing result) post)
        \/ Forall (matches_nothing result) sels).
Proof.
  split; [|split; [|split; [|split; [|split]]]].
  - intros pre sel post cur v Hpre Hq. split.
    + now apply cascade_first_qualifying.
    + intros post' _. now rewrite !(cascade_first_qualifying _ _ _ _ _ _ _ v).
  - intros sels cur Hall.
    destruct (cascade_none_qualifying get accept result sels cur Hall) as (w & Hw & Hor).
    exists w. repeat split; [exact Hw | exact Hor |].
    intros Hc. destruct Hor as [-> | (sel & _ & _ & Ha)]; assumption.
  - intros pre sel post cur e. apply cascade_raising_candidate.
  - intros pre sel post cur v. apply cascade_last_rejected.
  - intros sels cur. apply cascade_all_nothing.
  - apply cascade_exhaustive.
Qed.

Lemma cascade_earliest_first_match_witness :
  ((Forall (passed_over text_content accept_text two_heading_node) ["h3"]
    /\ qualifies_with text_content accept_text two_heading_node "h2" (Some "Other"))
   /\ cascade text_content accept_text two_heading_node
        (["h3"] ++ "h2" :: [".LC20lb"; ".DKV0Md"]) (Some EmptyString)
      = Ok (Some "Other")
   /\ forall post', Permutation [".LC20lb"; ".DKV0Md"] post' ->
        cascade text_content accept_text two_heading_node
          (["h3"] ++ "h2" :: post') (Some EmptyString)
        = cascade text_content accept_text two_heading_node
            (["h3"] ++ "h2" :: [".LC20lb"; ".DKV0Md"]) (Some EmptyString))
  /\ ((Forall (passed_over text_content accept_text raising_heading_node) []
       /\ raises_with text_content raising_heading_node "h3" "Target closed"
       /\ qualifies_with text_content accept_text raising_heading_node "h2"
            (Some "Other"))
      /\ cascade text_content accept_text raising_heading_node
           ([] ++ "h3" :: ["h2"; ".LC20lb"; ".DKV0Md"]) (Some EmptyString)
         = Raise "Target closed")
  /\ ((Forall (passed_over text_content accept_text blank_heading_node) []
       /\ rejected_with text_content accept_text blank_heading_node "h3" (Some " ")
       /\ Forall (matches_nothing blank_heading_node) ["h2"; ".LC20lb"; ".DKV0Md"])
      /\ cascade text_content accept_text blank_heading_node
           ([] ++ "h3" :: ["h2"; ".LC20lb"; ".DKV0Md"]) (Some EmptyString)
         = Ok (Some " ")).
Proof.
  assert (Forall (passed_over text_content accept_text two_heading_node) ["h3"]) as H3.
  { constructor; [|constructor]. exists 2. split; [reflexivity|].
    right. exists (Some " "). split; reflexivity. }
  assert (qualifies_with text_content accept_text two_heading_node "h2" (Some "Other"))
    as H2.
  { exists 1. repeat split. }
  assert (raises_with text_content raising_heading_node "h3" "Target closed") as Hr.
  { left. reflexivity. }
  assert (qualifies_with text_content accept_text raising_heading_node "h2"
            (Some "Other")) as Hq.
  { exists 1. repeat split. }
  assert (rejected_with text_content accept_text blank_heading_node "h3" (Some " "))
    as Hb.
  { exists 1. repeat split. }
  assert (Forall (matches_nothing blank_heading_node) ["h2"; ".LC20lb"; ".DKV0Md"])
    as Hn.
  { repeat constructor; exists 0; split; (reflexivity || lia). }
  split; [|split].
  - split; [split; assumption|].
    apply (proj1 (cascade_earliest_first_match text_content accept_text two_heading_node)
             ["h3"] "h2" [".LC20lb"; ".DKV0Md"] (Some EmptyString) (Some "Other") H3 H2).
  - split; [repeat split; (assumption || constructor)|].
    apply (proj1 (proj2 (proj2
             (cascade_earliest_first_match text_content accept_text
                raising_heading_node)))
             [] "h3" ["h2"; ".LC20lb"; ".DKV0Md"] (Some EmptyString) "Target closed"
             (Forall_nil_2 _) Hr).
  - split; [repeat split; (assumption || constructor)|].
    apply (proj1 (proj2 (proj2 (proj2
             (cascade_earliest_first_match text_content accept_text
                blank_heading_node))))
             [] "h3" ["h2"; ".LC20lb"; ".DKV0Md"] (Some EmptyString) (Some " ")
             (Forall_nil_2 _) Hb Hn).
Defined.

(** ** Fan-out and merge: statements of the specification *)

Section ScrapeFacts.

Variable run : nat -> string -> string -> res (gmap string pyval).
Variable now : nat -> string.

Lemma scrape_search_results_length search_results :
  length (scrape_search_results run now search_results) = length search_results.
Proof.
  unfold scrape_search_results, gather.
  destruct search_results as [|sr srs]; [reflexivity|].
  rewrite length_imap, length_zip, length_imap. lia.
Qed.

(** The [i]-th combined record is built from the [i]-th search result and
    the outcome of the [i]-th task alone. *)
Lemma scrape_search_results_lookup search_results i sr :
  search_results !! i = Some sr ->
  scrape_search_results run now search_results !! i
  = Some (combine (now i) sr (run i (url sr) (title sr))).
Proof.
  intros Hi. unfold scrape_search_results, gather.
  destruct search_results as [|sr0 srs]; [discriminate|].
  rewrite list_lookup_imap, lookup_zip_with.
  rewrite list_lookup_imap, Hi. reflexivity.
Qed.

End ScrapeFacts.

Lemma combine_failure now sr e :
  let rec := combine now sr (Raise e) in
  rec !! "error" = Some (VStr e)
  /\ rec !! "url" = Some (VStr (url sr))
  /\ rec !! "title" = Some (VStr (title sr))
  /\ rec !! "position" = Some (VInt (position sr))
  /\ rec !! "snippet" = Some (VStr (snippet sr))
  /\ rec !! "domain" = Some (VStr (domain sr))
  /\ rec !! "search_query" = Some (VStr (search_query sr)).
Proof. repeat split; reflexivity. Qed.

(** C1: for every sequence of K search results, [scrape_search_results]
    returns K combined records, the [i]-th built from the [i]-th search
    result and the [i]-th outcome; when that outcome is a raised failure the
    record carries the failure's message as its error and the url and title
    (and the other fields) of the [i]-th search result; and the record at an
    index does not depend on the outcomes at the other indices. *)
Theorem scrape_search_results_in_order run now search_results :
  length (scrape_search_results run now search_results) = length search_results
  /\ (forall i sr, search_results !! i = Some sr ->
        scrape_search_results run now search_results !! i
        = Some (combine (now i) sr (run i (url sr) (title sr)))
        /\ (forall e, run i (url sr) (title sr) = Raise e ->
              exists rec,
                scrape_search_results run now search_results !! i = Some rec
                /\ rec !! "error" = Some (VStr e)
                /\ rec !! "url" = Some (VStr (url sr))
                /\ rec !! "title" = Some (VStr (title sr))
                /\ rec !! "position" = Some (VInt (position sr)))
        /\ (forall c, run i (url sr) (title sr) = Ok c ->
              scrape_search_results run now search_results !! i
              = Some (c ∪ sr_dict sr)))
  /\ (forall run' j sr, search_results !! j = Some sr ->
        run' j (url sr) (title sr) = run j (url sr) (title sr) ->
        scrape_search_results run' now search_results !! j
        = scrape_search_results run now search_results !! j).
Proof.
  split; [apply scrape_search_results_length|]. split.
  - intros i sr Hi. pose proof (scrape_search_results_lookup run now _ _ _ Hi) as Hl.
    split; [exact Hl|]. split.
    + intros e He. rewrite He in Hl. eexists. split; [exact Hl|].
      repeat split; reflexivity.
    + intros c Hc. rewrite Hc in Hl. exact Hl.
  - intros run' j sr Hj Heq.
    rewrite (scrape_search_results_lookup run' now _ _ _ Hj).
    rewrite (scrape_search_results_lookup run now _ _ _ Hj).
    now rewrite Heq.
Qed.

Lemma scrape_search_results_in_order_witness :
  ([site1_record; site2_record] !! 1%nat = Some site2_record
   /\ run_second_fails 1 (url site2_record) (title site2_record)
      = Raise "Target page, context or browser has been closed")
  /\ exists rec,
       scrape_search_results run_second_fails clock [site1_record; site2_record] !! 1%nat
       = Some rec
       /\ rec !! "error"
          = Some (VStr "Target page, context or browser has been closed")
       /\ rec !! "url" = Some (VStr (url site2_record))
       /\ rec !! "title" = Some (VStr (title site2_record))
       /\ rec !! "position" = Some (VInt (position site2_record)).
Proof.
  split; [split; reflexivity|].
  apply (proj1 (proj2 (proj1 (proj2
           (scrape_search_results_in_order run_second_fails clock
              [site1_record; site2_record])) 1%nat site2_record eq_refl))).
  reflexivity.
Defined.

(** ** The content extractor: statements of the specification *)

Lemma set_text_error text (content_data : gmap string pyval) :
  set_text text content_data !! "error" = content_data !! "error".
Proof.
  unfold set_text. destruct (PyStr.truthy _);
    now rewrite ?lookup_insert_ne by discriminate.
Qed.

Lemma set_text_text_content text (content_data : gmap string pyval) :
  exists s, set_text text content_data !! "text_content" = Some (VStr s)
    /\ s = match text with
           | Some (String _ _ as t) => PyStr.strip t
           | _ => EmptyString
           end.
Proof.
  eexists. split; [|reflexivity]. unfold set_text.
  destruct (PyStr.truthy _);
    rewrite ?lookup_insert_ne by discriminate; apply lookup_insert_eq.
Qed.

Lemma set_meta_description_other page (content_data : gmap string pyval) k :
  k <> "meta_description" ->
  set_meta_description page content_data !! k = content_data !! k.
Proof.
  intros Hk. unfold set_meta_description.
  destruct (cp_meta_description page) as [[[|c s]|]|];
    now rewrite ?lookup_insert_ne by congruence.
Qed.

Lemma set_headings_other page (content_data : gmap string pyval) k :
  k <> "headings" ->
  set_headings page content_data !! k = content_data !! k.
Proof.
  intros Hk. unfold set_headings.
  destruct (cp_headings page); now rewrite ?lookup_insert_ne by congruence.
Qed.

Lemma extract_page_content_closed page now url title :
  cp_close page = Ok tt ->
  extract_page_content (Ok page) now url title
  = Ok (extract_in_page page url (default_content url title now)).
Proof. intros H. unfold extract_page_content. res_simpl. unfold try_finally. now rewrite H. Qed.

(** C8: when navigation yields a response with a status of 400 or more,
    [extract_page_content] returns early (the page being closed on the way
    out) with the record whose error is [HTTP <status>] and whose
    status_code is that status, every other field being as [content_data]
    was created: empty text, no words, no reading time, no headings, no
    meta description. *)
Theorem extract_page_content_http_error page now url title status :
  cp_goto page = Ok (Some status) ->
  400 <= status ->
  exists rec,
    extract_page_content (Ok page) now url title = try_finally (Ok rec) (cp_close page)
    /\ (cp_close page = Ok tt ->
        extract_page_content (Ok page) now url title = Ok rec)
    /\ rec !! "error" = Some (VStr ("HTTP " +:+ pretty status))
    /\ (status = 404 -> rec !! "error" = Some (VStr "HTTP 404"))
    /\ rec !! "status_code" = Some (VInt status)
    /\ rec !! "text_content" = Some (VStr EmptyString)
    /\ rec !! "word_count" = Some (VInt 0)
    /\ rec !! "reading_time" = Some (VInt 0)
    /\ rec !! "headings" = Some (VList [])
    /\ rec !! "meta_description" = Some (VStr EmptyString)
    /\ (forall k, k <> "error" -> k <> "status_code" ->
        rec !! k = default_content url title now !! k).
Proof.
  intros Hgoto Hs.
  assert (extract_in_page page url (default_content url title now)
          = <["error" := VStr ("HTTP " +:+ pretty status)]>
              (<["status_code" := VInt status]> (default_content url title now)))
    as Hrec.
  { unfold extract_in_page. rewrite Hgoto.
    apply Z.leb_le in Hs. now rewrite Hs. }
  eexists. split.
  - unfold extract_page_content. res_simpl. rewrite Hrec. reflexivity.
  - split.
    + intros Hclose. rewrite (extract_page_content_closed _ _ _ _ Hclose).
      now rewrite Hrec.
    + repeat split; try reflexivity.
      * intros ->. reflexivity.
      * intros k Hk1 Hk2. now rewrite !lookup_insert_ne by congruence.
Qed.

Lemma extract_page_content_http_error_witness :
  (cp_goto (content_page (Some 404) "Not Found") = Ok (Some 404) /\ 400 <= 404)
  /\ exists rec,
       extract_page_content (Ok (content_page (Some 404) "Not Found"))
         "2024-05-01T10:00:00" "https://example.com/gone" "Gone"
       = try_finally (Ok rec) (cp_close (content_page (Some 404) "Not Found"))
       /\ (cp_close (content_page (Some 404) "Not Found") = Ok tt ->
           extract_page_content (Ok (content_page (Some 404) "Not Found"))
             "2024-05-01T10:00:00" "https://example.com/gone" "Gone" = Ok rec)
       /\ rec !! "error" = Some (VStr ("HTTP " +:+ pretty 404))
       /\ (404 = 404 -> rec !! "error" = Some (VStr "HTTP 404"))
       /\ rec !! "status_code" = Some (VInt 404)
       /\ rec !! "text_content" = Some (VStr EmptyString)
       /\ rec !! "word_count" = Some (VInt 0)
       /\ rec !! "reading_time" = Some (VInt 0)
       /\ rec !! "headings" = Some (VList [])
       /\ rec !! "meta_description" = Some (VStr EmptyString)
       /\ (forall k, k <> "error" -> k <> "status_code" ->
           rec !! k = default_content "https://example.com/gone" "Gone"
                        "2024-05-01T10:00:00" !! k).
Proof.
  split.
  - split; [reflexivity | lia].
  - apply (extract_page_content_http_error (content_page (Some 404) "Not Found")
             "2024-05-01T10:00:00" "https://example.com/gone" "Gone" 404).
    + reflexivity.
    + lia.
Defined.

Example extract_page_content_404 :
  extract_page_content (Ok (content_page (Some 404) "Not Found"))
    "2024-05-01T10:00:00" "https://example.com/gone" "Gone"
  = Ok (list_to_map
          [("url", VStr "https://example.com/gone"); ("title", VStr "Gone");
           ("content", VStr EmptyString); ("text_content", VStr EmptyString);
           ("meta_description", VStr EmptyString);
           ("headings", VList []); ("links", VList []); ("images", VList []);
           ("status_code", VInt 404); ("error", VStr "HTTP 404");
           ("scraped_at", VStr "2024-05-01T10:00:00");
           ("word_count", VInt 0); ("reading_time", VInt 0)]).
Proof. vm_compute. reflexivity. Qed.

(** C3, counterexample.  When the context cannot open a page the call
    raises instead of returning a record; and on a page whose settle wait,
    meta description and headings all fail after a successful navigation,
    the record comes back with no error recorded. *)
Lemma extract_page_content_raises_and_drops :
  extract_page_content (Raise "Target page, context or browser has been closed")
    "2024-05-01T10:00:00" "https://example.com/" "Example"
  = Raise "Target page, context or browser has been closed"
  /\ (raised (cp_wait_for_load_state settle_timeout_page) = true
      /\ raised (cp_meta_description settle_timeout_page) = true
      /\ raised (cp_headings settle_timeout_page) = true
      /\ exists rec,
           extract_page_content (Ok settle_timeout_page)
             "2024-05-01T10:00:00" "https://example.com/" "Example" = Ok rec
           /\ rec !! "error" = Some VNone
           /\ rec !! "word_count" = Some (VInt 2)).
Proof.
  split; [reflexivity|]. repeat split.
  eexists. split; [vm_compute; reflexivity|]. split; reflexivity.
Qed.

(** C3, amended: [extract_page_content] returns a record, without
    raising, whenever the page opens and closes; a failure to open or to
    close the page is raised to the caller.  After a navigation that did not
    end in an error status, an error of the main-content extraction is
    caught and recorded as [Error extracting content from <url>: <message>]
    in the record, which keeps the status code set before; errors of the
    settle wait, the meta description and the headings are caught and
    dropped, the record carrying the extracted text and no error. *)
Theorem extract_page_content_outcomes now url title :
  (forall page, cp_close page = Ok tt ->
     exists rec, extract_page_content (Ok page) now url title = Ok rec)
  /\ (forall e, extract_page_content (Raise e) now url title = Raise e)
  /\ (forall page e, cp_close page = Raise e ->
        extract_page_content (Ok page) now url title = Raise e)
  /\ (forall page response e,
        cp_close page = Ok tt ->
        cp_goto page = Ok response ->
        (forall status, response = Some status -> status < 400) ->
        cp_evaluate page = Raise e ->
        extract_page_content (Ok page) now url title
        = Ok (<["error" := VStr (extraction_error url e)]>
               (<["status_code" := match response with
                                   | Some status => VInt status
                                   | None => VNone
                                   end]> (default_content url title now))))
  /\ (forall page response text,
        cp_close page = Ok tt ->
        cp_goto page = Ok response ->
        (forall status, response = Some status -> status < 400) ->
        cp_evaluate page = Ok text ->
        exists rec,
          extract_page_content (Ok page) now url title = Ok rec
          /\ rec !! "error" = Some VNone
          /\ rec !! "text_content"
             = Some (VStr match text with
                          | Some (String _ _ as t) => PyStr.strip t
                          | _ => EmptyString
                          end)).
Proof.
  assert (forall page response,
            cp_goto page = Ok response ->
            (forall status, response = Some status -> status < 400) ->
            extract_in_page page url (default_content url title now)
            = extract_after_navigation page url
                (<["status_code" := match response with
                                    | Some status => VInt status
                                    | None => VNone
                                    end]> (default_content url title now))) as Hnav.
  { intros page response Hgoto Hs. unfold extract_in_page. rewrite Hgoto.
    destruct response as [status|]; [|reflexivity].
    assert ((400 <=? status) = false) as ->; [|reflexivity].
    apply Z.leb_gt. now apply Hs. }
  repeat split.
  - intros page Hclose. eexists. apply (extract_page_content_closed _ _ _ _ Hclose).
  - intros page e Hclose. unfold extract_page_content. res_simpl.
    unfold try_finally. now rewrite Hclose.
  - intros page response e Hclose Hgoto Hs He.
    rewrite (extract_page_content_closed _ _ _ _ Hclose), (Hnav _ _ Hgoto Hs).
    unfold extract_after_navigation. now rewrite He.
  - intros page response text Hclose Hgoto Hs Ht.
    rewrite (extract_page_content_closed _ _ _ _ Hclose), (Hnav _ _ Hgoto Hs).
    unfold extract_after_navigation. rewrite Ht.
    eexists. split; [reflexivity|]. split.
    + rewrite set_headings_other, set_meta_description_other, set_text_error
        by discriminate.
      reflexivity.
    + rewrite set_headings_other, set_meta_description_other by discriminate.
      destruct (set_text_text_content text
        (<["status_code" := match response with
                            | Some status => VInt status
                            | None => VNone
                            end]> (default_content url title now))) as (s & -> & ->).
      reflexivity.
Qed.

Lemma extract_page_content_outcomes_witness :
  (cp_close settle_timeout_page = Ok tt
   /\ cp_goto settle_timeout_page = Ok (Some 200)
   /\ (forall status, Some 200 = Some status -> status < 400)
   /\ cp_evaluate settle_timeout_page = Ok (Some "hello world"))
  /\ exists rec,
       extract_page_content (Ok settle_timeout_page)
         "2024-05-01T10:00:00" "https://example.com/" "Example" = Ok rec
       /\ rec !! "error" = Some VNone
       /\ rec !! "text_content" = Some (VStr (PyStr.strip "hello world")).
Proof.
  assert (forall status : Z, Some 200 = Some status -> status < 400) as Hs.
  { intros status [= <-]. lia. }
  split; [repeat split; exact Hs|].
  apply (proj2 (proj2 (proj2 (proj2
           (extract_page_content_outcomes "2024-05-01T10:00:00"
              "https://example.com/" "Example"))))
           settle_timeout_page (Some 200) (Some "hello world")
           eq_refl eq_refl Hs eq_refl).
Defined.

(** ** Where the network location stands in the url *)

Lemma append_assoc (a b c : string) : (a +:+ b) +:+ c = a +:+ (b +:+ c).
Proof.
  induction a as [|x a IH]; [reflexivity|].
  change (String x ((a +:+ b) +:+ c) = String x (a +:+ (b +:+ c))). now f_equal.
Qed.

Lemma partition_spec x s a b :
  UrlParse.partition x s = Some (a, b) -> s = a +:+ String x b.
Proof.
  revert a. induction s as [|c s IH]; intros a H; simpl in H; [discriminate|].
  destruct (Ascii.eqb x c) eqn:E.
  - apply Ascii.eqb_eq in E as ->. now injection H as <- <-.
  - destruct (UrlParse.partition x s) as [[a' b']|]; [|discriminate].
    injection H as <- <-. simpl. now rewrite (IH a' eq_refl).
Qed.

Lemma upto_delim_prefix s : exists post, s = UrlParse.upto_delim s +:+ post.
Proof.
  induction s as [|c s [post IH]]; simpl.
  - now exists EmptyString.
  - destruct (UrlParse.netloc_delim c).
    + now exists (String c s).
    + exists post.
      change (String c s = String c (UrlParse.upto_delim s +:+ post)).
      now f_equal.
Qed.

Lemma strip_scheme_suffix u : exists pre, u = pre +:+ UrlParse.strip_scheme u.
Proof.
  unfold UrlParse.strip_scheme.
  destruct (UrlParse.partition ":" u) as [[[|c0 scheme] rest]|] eqn:E;
    try (now exists EmptyString).
  destruct (_ && _); [|now exists EmptyString].
  apply partition_spec in E. exists (String c0 scheme +:+ ":").
  now rewrite append_assoc.
Qed.

(** For a url that starts with [http] and holds no tab, CR or LF, the
    network location is a part of the url as it stands. *)
Lemma netloc_verbatim check_bracketed_netloc checknetloc u d :
  PyStr.startswith "http" u = true ->
  UrlParse.remove_unsafe u = u ->
  UrlParse.netloc check_bracketed_netloc checknetloc u = Ok d ->
  exists pre post, u = pre +:+ d +:+ post.
Proof.
  intros Hh Hu H. unfold UrlParse.netloc in H.
  assert (UrlParse.lstrip_c0 u = u) as Hl.
  { destruct u as [|c u]; [reflexivity|].
    change ((if Ascii.eqb "h" c then PyStr.startswith "ttp" u else false) = true) in Hh.
    destruct (Ascii.eqb "h" c) eqn:E; [|discriminate].
    apply Ascii.eqb_eq in E as <-. reflexivity. }
  rewrite Hl, Hu in H.
  destruct (strip_scheme_suffix u) as [pre Hpre].
  destruct (UrlParse.strip_scheme u) as [|c1 [|c2 rest]] eqn:Es.
  - injection H as <-. now exists EmptyString, u.
  - assert (d = EmptyString) as ->.
    { destruct (Ascii.eqb c1 "/") eqn:E1.
      - apply Ascii.eqb_eq in E1 as ->. now injection H as <-.
      - destruct c1 as [[] [] [] [] [] [] [] []]; try discriminate;
          now injection H as <-. }
    now exists EmptyString, u.
  - assert (d = EmptyString \/ (c1 = "/"%char /\ c2 = "/"%char
                                /\ d = UrlParse.upto_delim rest)) as [-> | (-> & -> & ->)].
    { destruct (Ascii.eqb c1 "/") eqn:E1, (Ascii.eqb c2 "/") eqn:E2.
      - apply Ascii.eqb_eq in E1 as ->. apply Ascii.eqb_eq in E2 as ->. right.
        repeat split.
        destruct (_ || _); [discriminate|].
        destruct (if _ && _ then _ else _); [|discriminate]. res_simpl.
        destruct (if UrlParse.is_ascii _ then _ else _); [|discriminate]. res_simpl.
        now injection H as <-.
      - apply Ascii.eqb_eq in E1 as ->. left.
        destruct c2 as [[] [] [] [] [] [] [] []]; try discriminate;
          now injection H as <-.
      - left. destruct c1 as [[] [] [] [] [] [] [] []]; try discriminate;
          now injection H as <-.
      - left. destruct c1 as [[] [] [] [] [] [] [] []]; try discriminate;
          now injection H as <-. }
    + now exists EmptyString, u.
    + destruct (upto_delim_prefix rest) as [post Hpost].
      exists (pre +:+ "//"), post. rewrite Hpre at 1.
      rewrite append_assoc. simpl. now rewrite <- Hpost.
Qed.

(** With the standard library's splitting, the domain of an output record
    whose url holds no tab, CR or LF contains none of the excluded
    substrings. *)
Corollary search_google_domain_not_excluded check_bracketed_netloc checknetloc
    new_page debug query max_results out r p :
  search_google (UrlParse.netloc check_bracketed_netloc checknetloc)
    new_page debug query max_results = Ok out ->
  In r out ->
  UrlParse.remove_unsafe (url r) = url r ->
  In p excluded_domains ->
  PyStr.contains p (domain r) = false.
Proof.
  intros H Hr Hu Hp.
  destruct (search_google_url_facts _ _ _ _ _ _ _ H Hr) as (Hh & Hx & Hd).
  destruct (netloc_verbatim _ _ _ _ Hh Hu Hd) as (pre & post & Heq).
  exact (infix_not_excluded _ _ _ _ Hx Heq p Hp).
Qed.

(** ** Trimmed strings *)

Lemma lstrip_head s :
  PyStr.lstrip s = EmptyString
  \/ exists c r, PyStr.lstrip s = String c r /\ PyStr.isspace c = false.
Proof.
  induction s as [|c s IH]; [now left|]. cbn [PyStr.lstrip].
  destruct (PyStr.isspace c) eqn:E; [exact IH|]. right. eauto.
Qed.

Lemma lstrip_nospace c r :
  PyStr.isspace c = false -> PyStr.lstrip (String c r) = String c r.
Proof. intros H. cbn [PyStr.lstrip]. now rewrite H. Qed.

Lemma rstrip_head c r :
  PyStr.isspace c = false -> exists r', PyStr.rstrip (String c r) = String c r'.
Proof.
  intros H. cbn [PyStr.rstrip]. destruct (PyStr.rstrip r); [rewrite H|]; eauto.
Qed.

Lemma rstrip_idem s : PyStr.rstrip (PyStr.rstrip s) = PyStr.rstrip s.
Proof.
  induction s as [|c s IH]; [reflexivity|]. cbn [PyStr.rstrip].
  destruct (PyStr.rstrip s) as [|c' r'] eqn:E.
  - destruct (PyStr.isspace c) eqn:Ec; [reflexivity|].
    cbn [PyStr.rstrip]. now rewrite Ec.
  - change (PyStr.rstrip (String c (String c' r')))
      with (match PyStr.rstrip (String c' r') with
            | EmptyString =>
                if PyStr.isspace c then EmptyString else String c EmptyString
            | String _ _ as r0 => String c r0
            end).
    now rewrite IH.
Qed.

(** A trimmed string is empty or starts with a character that is no
    space. *)
Lemma strip_head s :
  PyStr.strip s = EmptyString
  \/ exists c r, PyStr.strip s = String c r /\ PyStr.isspace c = false.
Proof.
  unfold PyStr.strip. destruct (lstrip_head s) as [-> | (c & r & -> & Hc)].
  - now left.
  - right. destruct (rstrip_head c r Hc) as [r' ->]. eauto.
Qed.

Lemma strip_idem s : PyStr.strip (PyStr.strip s) = PyStr.strip s.
Proof.
  destruct (strip_head s) as [-> | (c & r & E & Hc)]; [reflexivity|].
  rewrite E. unfold PyStr.strip at 1. rewrite (lstrip_nospace c r Hc), <- E.
  unfold PyStr.strip. apply rstrip_idem.
Qed.

Lemma count_words_nonneg b s : 0 <= PyStr.count_words b s.
Proof.
  revert b. induction s as [|c s IH]; intros b; cbn [PyStr.count_words]; [lia|].
  destruct (PyStr.isspace c); [apply IH|].
  pose proof (IH true). destruct b; lia.
Qed.

Lemma count_words_head c r :
  PyStr.isspace c = false -> 1 <= PyStr.count_words false (String c r).
Proof.
  intros H. cbn [PyStr.count_words]. rewrite H.
  pose proof (count_words_nonneg true r). lia.
Qed.

(** ** More of [search_google] *)

Section SearchMore.

Variable urlparse_netloc : string -> res string.
Variable query : string.

Lemma extract_result_snippet result n r :
  extract_result urlparse_netloc query result n = Ok (Some r) ->
  exists snippet_v,
    cascade text_content accept_text result snippet_selectors (Some EmptyString)
      = Ok snippet_v
    /\ snippet r = match snippet_v with
                   | Some (String _ _ as s) => PyStr.strip s
                   | _ => "No description available"
                   end.
Proof.
  unfold extract_result. intros H.
  destruct (cascade text_content _ _ title_selectors _) as [t|]; [|discriminate].
  destruct (cascade get_href _ _ _ _) as [u|]; [|discriminate].
  destruct (cascade text_content _ _ snippet_selectors _) as [sn|]; [|discriminate].
  res_simpl.
  destruct t as [t|]; [|discriminate].
  destruct u as [u|]; [|discriminate].
  destruct (_ || _ || _); [discriminate|].
  destruct (excluded u); [discriminate|].
  destruct (urlparse_netloc u); [|discriminate].
  res_simpl. injection H as <-. exists sn. split; reflexivity.
Qed.

(** The loop appends the records of the accepted nodes in the order of the
    nodes. *)
Lemma process_results_in_order nodes : forall results,
  exists new,
    process_results urlparse_netloc query nodes results = (results ++ new)%list
    /\ Forall2 (fun result r =>
                  exists n, extract_result urlparse_netloc query result n = Ok (Some r))
         (List.filter (accepted urlparse_netloc query) nodes) new.
Proof.
  induction nodes as [|result rest IH]; intros results.
  - exists []. rewrite app_nil_r. split; [reflexivity | constructor].
  - cbn [process_results List.filter].
    destruct (extract_result urlparse_netloc query result (length results))
      as [[r|]|] eqn:E.
    + assert (accepted urlparse_netloc query result = true) as ->
        by (apply (accepted_true _ _ _ (length results)); eauto).
      destruct (IH (results ++ [r])%list) as (new & Hp & Hf).
      exists (r :: new). rewrite Hp, <- app_assoc. split; [reflexivity|].
      constructor; [eauto | exact Hf].
    + assert (accepted urlparse_netloc query result = false) as ->.
      { destruct (accepted urlparse_netloc query result) eqn:A; [|reflexivity].
        apply (accepted_true _ _ _ (length results)) in A as [r Hr]. congruence. }
      apply IH.
    + assert (accepted urlparse_netloc query result = false) as ->.
      { destruct (accepted urlparse_netloc query result) eqn:A; [|reflexivity].
        apply (accepted_true _ _ _ (length results)) in A as [r Hr]. congruence. }
      apply IH.
Qed.

End SearchMore.

(** X1: the output lists the accepted nodes of the slice in document
    order: the i-th record carries the link of the i-th accepted node and
    its title, trimmed. *)
Theorem search_google_keeps_order urlparse_netloc page debug query nodes max_results :
  page_yields page debug query nodes ->
  exists out,
    search_google urlparse_netloc (Ok page) debug query max_results = Ok out
    /\ Forall2
         (fun result r =>
            cascade get_href accept_link result link_selectors (Some EmptyString)
              = Ok (Some (url r))
            /\ exists title_s,
                 cascade text_content accept_text result title_selectors
                   (Some EmptyString) = Ok (Some title_s)
                 /\ title r = PyStr.strip title_s)
         (List.filter (accepted urlparse_netloc query)
            (PyStr.slice_to nodes max_results))
         out.
Proof.
  intros Hy. eexists. split; [apply search_google_yields, Hy|].
  destruct (process_results_in_order urlparse_netloc query
              (PyStr.slice_to nodes max_results) []) as (new & -> & Hf).
  simpl. eapply Forall2_impl; [exact Hf|].
  intros result r [n He].
  apply extract_result_inv in He
    as (t & u & sn & Ht & Hu & _ & _ & _ & _ & _ & _ & Htr & Hur & _).
  subst u. split; [exact Hu|]. eauto.
Qed.

Lemma search_google_keeps_order_witness :
  page_yields (page_with [site 1; google_node; site 2]) false "q"
    [site 1; google_node; site 2]
  /\ exists out,
       search_google UrlParse.netloc_lenient
         (Ok (page_with [site 1; google_node; site 2])) false "q" 10 = Ok out
       /\ Forall2
            (fun result r =>
               cascade get_href accept_link result link_selectors (Some EmptyString)
                 = Ok (Some (url r))
               /\ exists title_s,
                    cascade text_content accept_text result title_selectors
                      (Some EmptyString) = Ok (Some title_s)
                    /\ title r = PyStr.strip title_s)
            (List.filter (accepted UrlParse.netloc_lenient "q")
               (PyStr.slice_to [site 1; google_node; site 2] 10))
            out.
Proof.
  split.
  - apply page_with_yields. discriminate.
  - apply (search_google_keeps_order UrlParse.netloc_lenient
             (page_with [site 1; google_node; site 2]) false "q"
             [site 1; google_node; site 2] 10).
    apply page_with_yields. discriminate.
Defined.

(** X2: every record of the output carries the query it was found for, a
    title without leading or trailing white space, and a snippet that is
    either the placeholder or a text without leading or trailing white
    space. *)
Theorem search_google_record_trimmed urlparse_netloc new_page debug query max_results out r :
  search_google urlparse_netloc new_page debug query max_results = Ok out ->
  In r out ->
  search_query r = query
  /\ PyStr.strip (title r) = title r
  /\ (snippet r = "No description available"
      \/ PyStr.strip (snippet r) = snippet r).
Proof.
  intros H Hr. apply list_elem_of_In, list_elem_of_lookup in Hr as [i Hi].
  destruct (search_google_record _ _ _ _ _ _ _ _ H Hi) as (result & He).
  destruct (extract_result_snippet _ _ _ _ _ He) as (sn & _ & Hs).
  apply extract_result_inv in He
    as (t & u & sn' & _ & _ & _ & _ & _ & _ & _ & _ & Ht & _ & Hq).
  split; [exact Hq|]. split.
  - rewrite Ht. apply strip_idem.
  - rewrite Hs. destruct sn as [[|c s]|]; [now left | | now left].
    right. apply strip_idem.
Qed.

Lemma search_google_record_trimmed_witness :
  (search_google UrlParse.netloc_lenient (Ok (page_with [site 1])) false "q" 10
   = Ok [site1_record]
   /\ In site1_record [site1_record])
  /\ search_query site1_record = "q"
  /\ PyStr.strip (title site1_record) = title site1_record
  /\ (snippet site1_record = "No description available"
      \/ PyStr.strip (snippet site1_record) = snippet site1_record).
Proof.
  split.
  - split; [vm_compute; reflexivity | left; reflexivity].
  - apply (search_google_record_trimmed UrlParse.netloc_lenient
             (Ok (page_with [site 1])) false "q" 10 [site1_record] site1_record).
    + vm_compute. reflexivity.
    + left. reflexivity.
Defined.

Lemma wait_for_container_none page selectors :
  Forall (fun sel => raised (sp_wait_for_selector page sel) = true) selectors ->
  wait_for_container page selectors = None.
Proof.
  induction 1 as [|sel rest Hsel _ IH]; [reflexivity|]. simpl.
  destruct (sp_wait_for_selector page sel); [discriminate | exact IH].
Qed.

(** X3: with debug off, [search_google] returns a list whenever the page
    closes, and the list is empty when the navigation fails, when no
    container selector is found, and when the node query fails or matches
    nothing: none of these is raised to the caller. *)
Theorem search_google_failures_give_empty urlparse_netloc page query max_results :
  sp_close page = Ok tt ->
  (exists out,
     search_google urlparse_netloc (Ok page) false query max_results = Ok out)
  /\ (forall e,
        sp_goto page ("https://www.google.com/search?q=" +:+ replace_space_plus query)
        = Raise e ->
        search_google urlparse_netloc (Ok page) false query max_results = Ok [])
  /\ (Forall (fun sel => raised (sp_wait_for_selector page sel) = true)
        result_selectors ->
      search_google urlparse_netloc (Ok page) false query max_results = Ok [])
  /\ (forall e,
        locate_results page search_result_selectors = Raise e ->
        search_google urlparse_netloc (Ok page) false query max_results = Ok [])
  /\ (locate_results page search_result_selectors = Ok [] ->
      search_google urlparse_netloc (Ok page) false query max_results = Ok []).
Proof.
  intros Hclose.
  assert (forall body,
            search_google_try urlparse_netloc page false query max_results = body ->
            search_google urlparse_netloc (Ok page) false query max_results
            = match body with Ok rs => Ok rs | Raise _ => Ok [] end) as Hsg.
  { intros body <-. unfold search_google. res_simpl.
    unfold try_finally. rewrite Hclose. unfold try_except.
    destruct (search_google_try _ _ _ _ _); reflexivity. }
  repeat split.
  - rewrite (Hsg _ eq_refl). destruct (search_google_try _ _ _ _ _); eauto.
  - intros e He. rewrite (Hsg (Raise e)); [reflexivity|].
    unfold search_google_try. now rewrite He.
  - intros Hall. unfold search_google_try in Hsg.
    rewrite (wait_for_container_none _ _ Hall) in Hsg.
    destruct (sp_goto page _) as [[]|e] eqn:Eg.
    + apply (Hsg (Ok [])). reflexivity.
    + apply (Hsg (Raise e)). reflexivity.
  - intros e He. unfold search_google_try in Hsg. rewrite He in Hsg.
    destruct (sp_goto page _) as [[]|e'] eqn:Eg.
    + destruct (wait_for_container page result_selectors).
      * apply (Hsg (Raise e)). reflexivity.
      * apply (Hsg (Ok [])). reflexivity.
    + apply (Hsg (Raise e')). reflexivity.
  - intros He. unfold search_google_try in Hsg. rewrite He in Hsg.
    destruct (sp_goto page _) as [[]|e'] eqn:Eg.
    + destruct (wait_for_container page result_selectors);
        apply (Hsg (Ok [])); reflexivity.
    + apply (Hsg (Raise e')). reflexivity.
Qed.

Lemma search_google_failures_give_empty_witness :
  sp_close unreachable_page = Ok tt
  /\ sp_goto unreachable_page
       ("https://www.google.com/search?q=" +:+ replace_space_plus "rocq prover")
     = Raise "net::ERR_NAME_NOT_RESOLVED"
  /\ search_google UrlParse.netloc_lenient (Ok unreachable_page) false "rocq prover" 10
     = Ok [].
Proof.
  split; [reflexivity|]. split; [reflexivity|].
  apply (proj1 (proj2 (search_google_failures_give_empty UrlParse.netloc_lenient
                         unreachable_page "rocq prover" 10 eq_refl))
           "net::ERR_NAME_NOT_RESOLVED").
  reflexivity.
Defined.

(** X4: the node query takes the nodes of the earliest selector that
    matches any, the selectors before it having matched none; a selector
    that fails before one matches makes the query fail; and a result is
    either empty, every selector having matched nothing, or the match of one
    of the selectors. *)
Theorem locate_results_first_nonempty page :
  (forall pre sel post n ns,
     Forall (fun s => sp_locator_all page s = Ok []) pre ->
     sp_locator_all page sel = Ok (n :: ns) ->
     locate_results page (pre ++ sel :: post) = Ok (n :: ns))
  /\ (forall pre sel post e,
        Forall (fun s => sp_locator_all page s = Ok []) pre ->
        sp_locator_all page sel = Raise e ->
        locate_results page (pre ++ sel :: post) = Raise e)
  /\ (forall selectors nodes,
        locate_results page selectors = Ok nodes ->
        (nodes = [] /\ Forall (fun s => sp_locator_all page s = Ok []) selectors)
        \/ (nodes <> []
            /\ exists sel, In sel selectors /\ sp_locator_all page sel = Ok nodes)).
Proof.
  repeat split.
  - intros pre sel post n ns Hpre Hsel.
    induction Hpre as [|s pre Hs _ IH]; simpl.
    + now rewrite Hsel.
    + rewrite Hs. res_simpl. exact IH.
  - intros pre sel post e Hpre Hsel.
    induction Hpre as [|s pre Hs _ IH]; simpl.
    + now rewrite Hsel.
    + rewrite Hs. res_simpl. exact IH.
  - intros selectors. induction selectors as [|s rest IH]; intros nodes H; simpl in H.
    + injection H as <-. left. split; [reflexivity | constructor].
    + destruct (sp_locator_all page s) as [[|n ns]|e] eqn:Es; res_simpl.
      * destruct (IH nodes H) as [[-> Hall] | (Hne & sel & Hin & Hsel)].
        -- left. split; [reflexivity | now constructor].
        -- right. split; [exact Hne|]. exists sel. split; [now right | exact Hsel].
      * injection H as <-. right. split; [discriminate|].
        exists s. split; [now left | exact Es].
      * discriminate.
Qed.

Lemma locate_results_first_nonempty_witness :
  (Forall (fun s => sp_locator_all (page_with three_sites) s = Ok []) []
   /\ sp_locator_all (page_with three_sites) ".g" = Ok (site 1 :: [site 2; site 3]))
  /\ locate_results (page_with three_sites)
       ([] ++ ".g" :: [".MjjYud"; "[data-sokoban-container] .g"; ".hlcw0c";
                       "[jscontroller] .g"])
     = Ok (site 1 :: [site 2; site 3]).
Proof.
  split; [split; [constructor | reflexivity]|].
  apply (proj1 (locate_results_first_nonempty (page_with three_sites))
           [] ".g" _ (site 1) [site 2; site 3]); [constructor | reflexivity].
Defined.

(** ** More of [extract_page_content] *)

(** The four ways through the page: a failed navigation, an error status,
    a failed text extraction, and the full extraction. *)
Lemma extract_in_page_cases page url (content_data : gmap string pyval) :
  (exists e, cp_goto page = Raise e
     /\ extract_in_page page url content_data
        = <["error" := VStr ("Navigation failed: " +:+ e)]> content_data)
  \/ (exists status, cp_goto page = Ok (Some status) /\ 400 <= status
        /\ extract_in_page page url content_data
           = <["error" := VStr ("HTTP " +:+ pretty status)]>
               (<["status_code" := VInt status]> content_data))
  \/ (exists response e, cp_goto page = Ok response /\ cp_evaluate page = Raise e
        /\ extract_in_page page url content_data
           = <["error" := VStr (extraction_error url e)]>
               (<["status_code" := status_code_of response]> content_data))
  \/ (exists response text, cp_goto page = Ok response /\ cp_evaluate page = Ok text
        /\ (forall status, response = Some status -> status < 400)
        /\ extract_in_page page url content_data
           = set_headings page
               (set_meta_description page
                  (set_text text
                     (<["status_code" := status_code_of response]> content_data)))).
Proof.
  unfold extract_in_page. destruct (cp_goto page) as [response|e] eqn:Eg.
  - assert (extract_after_navigation page url
              (<["status_code" := status_code_of response]> content_data)
            = match cp_evaluate page with
              | Raise e =>
                  <["error" := VStr (extraction_error url e)]>
                    (<["status_code" := status_code_of response]> content_data)
              | Ok text =>
                  set_headings page
                    (set_meta_description page
                       (set_text text
                          (<["status_code" := status_code_of response]> content_data)))
              end) as Hafter by reflexivity.
    destruct response as [status|].
    + destruct (400 <=? status) eqn:Es.
      * right. left. exists status. apply Z.leb_le in Es. auto.
      * apply Z.leb_gt in Es. change (VInt status) with (status_code_of (Some status)).
        rewrite Hafter. destruct (cp_evaluate page) as [text|e] eqn:Ee.
        -- right. right. right. exists (Some status), text.
           repeat split. intros s [= <-]. exact Es.
        -- right. right. left. exists (Some status), e. auto.
    + change VNone with (status_code_of None). rewrite Hafter.
      destruct (cp_evaluate page) as [text|e] eqn:Ee.
      * right. right. right. exists None, text. repeat split. discriminate.
      * right. right. left. exists None, e. auto.
  - left. exists e. auto.
Qed.

Lemma set_text_other text (content_data : gmap string pyval) k :
  k <> "text_content" -> k <> "word_count" -> k <> "reading_time" ->
  set_text text content_data !! k = content_data !! k.
Proof.
  intros H1 H2 H3. unfold set_text.
  destruct (PyStr.truthy _); now rewrite ?lookup_insert_ne by congruence.
Qed.

(** The text stored and the metrics derived from it. *)
Lemma set_text_metrics text (content_data : gmap string pyval) :
  content_data !! "word_count" = Some (VInt 0) ->
  content_data !! "reading_time" = Some (VInt 0) ->
  exists t words,
    set_text text content_data !! "text_content" = Some (VStr t)
    /\ set_text text content_data !! "word_count" = Some (VInt words)
    /\ set_text text content_data !! "reading_time"
       = Some (VInt (if words =? 0 then 0 else Z.max 1 (words / 200)))
    /\ words = PyStr.count_words false t
    /\ (words = 0 <-> t = EmptyString)
    /\ PyStr.strip t = t.
Proof.
  intros Hw Hr. unfold set_text.
  set (t := match text with
            | Some (String _ _ as s) => PyStr.strip s
            | _ => EmptyString
            end).
  assert (PyStr.strip t = t) as Hstrip.
  { subst t. destruct text as [[|c s]|]; try reflexivity. apply strip_idem. }
  assert (t = EmptyString \/ exists c r, t = String c r /\ PyStr.isspace c = false)
    as [Ht | (c & r & Ht & Hc)].
  { rewrite <- Hstrip. apply strip_head. }
  - rewrite Ht. cbn [PyStr.truthy]. exists EmptyString, 0.
    rewrite lookup_insert_eq, !lookup_insert_ne by discriminate.
    rewrite Hw, Hr. repeat split.
  - rewrite Ht. cbn [PyStr.truthy]. exists (String c r), (PyStr.count_words false (String c r)).
    pose proof (count_words_head c r Hc) as Hpos.
    rewrite lookup_insert_eq.
    rewrite (lookup_insert_ne _ "reading_time" "word_count") by discriminate.
    rewrite lookup_insert_eq.
    rewrite !lookup_insert_ne by discriminate. rewrite lookup_insert_eq.
    assert ((PyStr.count_words false (String c r) =? 0) = false) as ->
      by (apply Z.eqb_neq; lia).
    repeat split; intros; try lia; try discriminate;
      try (rewrite <- Ht; exact Hstrip).
Qed.

(** X5: when the navigation raises, [extract_page_content] leaves through
    the early return with the record as it was created, except for the
    error [Navigation failed: <message>]; the status code stays [None] and
    nothing is read from the page. *)
Theorem extract_page_content_navigation_failed page now url title e :
  cp_goto page = Raise e ->
  exists rec,
    extract_page_content (Ok page) now url title = try_finally (Ok rec) (cp_close page)
    /\ (cp_close page = Ok tt ->
        extract_page_content (Ok page) now url title = Ok rec)
    /\ rec !! "error" = Some (VStr ("Navigation failed: " +:+ e))
    /\ rec !! "status_code" = Some VNone
    /\ (forall k, k <> "error" -> rec !! k = default_content url title now !! k).
Proof.
  intros Hgoto.
  assert (extract_in_page page url (default_content url title now)
          = <["error" := VStr ("Navigation failed: " +:+ e)]>
              (default_content url title now)) as Hrec.
  { unfold extract_in_page. now rewrite Hgoto. }
  eexists. split.
  - unfold extract_page_content. res_simpl. rewrite Hrec. reflexivity.
  - split.
    + intros Hclose. rewrite (extract_page_content_closed _ _ _ _ Hclose).
      now rewrite Hrec.
    + repeat split. intros k Hk. now rewrite lookup_insert_ne by congruence.
Qed.

Lemma extract_page_content_navigation_failed_witness :
  cp_goto unreachable_content_page = Raise "net::ERR_CONNECTION_RESET"
  /\ exists rec,
       extract_page_content (Ok unreachable_content_page)
         "2024-05-01T10:00:00" "https://example.com/" "Example"
       = try_finally (Ok rec) (cp_close unreachable_content_page)
       /\ (cp_close unreachable_content_page = Ok tt ->
           extract_page_content (Ok unreachable_content_page)
             "2024-05-01T10:00:00" "https://example.com/" "Example" = Ok rec)
       /\ rec !! "error"
          = Some (VStr ("Navigation failed: " +:+ "net::ERR_CONNECTION_RESET"))
       /\ rec !! "status_code" = Some VNone
       /\ (forall k, k <> "error" ->
           rec !! k = default_content "https://example.com/" "Example"
                        "2024-05-01T10:00:00" !! k).
Proof.
  split; [reflexivity|].
  apply (extract_page_content_navigation_failed unreachable_content_page
           "2024-05-01T10:00:00" "https://example.com/" "Example"
           "net::ERR_CONNECTION_RESET").
  reflexivity.
Defined.

Lemma extract_page_content_Ok_inv new_page now url title rec :
  extract_page_content new_page now url title = Ok rec ->
  exists page, new_page = Ok page
    /\ rec = extract_in_page page url (default_content url title now).
Proof.
  unfold extract_page_content. destruct new_page as [page|e]; [|discriminate].
  res_simpl. unfold try_finally. destruct (cp_close page); [|discriminate].
  intros [= <-]. eauto.
Qed.

(** A key that is not assigned after the creation keeps its value. *)
Lemma extract_in_page_other page url (content_data : gmap string pyval) k :
  ~ In k assigned_keys ->
  extract_in_page page url content_data !! k = content_data !! k.
Proof.
  intros Hk.
  assert (k <> "status_code" /\ k <> "error" /\ k <> "text_content"
          /\ k <> "word_count" /\ k <> "reading_time"
          /\ k <> "meta_description" /\ k <> "headings")
    as (H1 & H2 & H3 & H4 & H5 & H6 & H7).
  { repeat split; intros ->; apply Hk; simpl; tauto. }
  destruct (extract_in_page_cases page url content_data)
    as [(e & _ & ->) | [(s & _ & _ & ->) | [(r & e & _ & _ & ->) | (r & t & _ & _ & _ & ->)]]].
  - now rewrite lookup_insert_ne by congruence.
  - now rewrite !lookup_insert_ne by congruence.
  - now rewrite !lookup_insert_ne by congruence.
  - rewrite set_headings_other, set_meta_description_other, set_text_other
      by congruence.
    now rewrite lookup_insert_ne by congruence.
Qed.

Lemma set_text_dom text (content_data : gmap string pyval) :
  is_Some (content_data !! "text_content") ->
  is_Some (content_data !! "word_count") ->
  is_Some (content_data !! "reading_time") ->
  dom (set_text text content_data) = dom content_data.
Proof.
  intros Ht Hw Hr. unfold set_text. destruct (PyStr.truthy _).
  - rewrite !dom_insert_lookup_L; try reflexivity; try assumption.
    + now rewrite lookup_insert_ne by discriminate.
    + rewrite lookup_insert_ne by discriminate.
      now rewrite lookup_insert_ne by discriminate.
  - now rewrite dom_insert_lookup_L.
Qed.

Lemma set_meta_description_dom page (content_data : gmap string pyval) :
  is_Some (content_data !! "meta_description") ->
  dom (set_meta_description page content_data) = dom content_data.
Proof.
  intros H. unfold set_meta_description.
  destruct (cp_meta_description page) as [[[|c s]|]|];
    try reflexivity; now rewrite dom_insert_lookup_L.
Qed.

Lemma set_headings_dom page (content_data : gmap string pyval) :
  is_Some (content_data !! "headings") ->
  dom (set_headings page content_data) = dom content_data.
Proof.
  intros H. unfold set_headings.
  destruct (cp_headings page); [now rewrite dom_insert_lookup_L | reflexivity].
Qed.

Lemma extract_in_page_dom page url title now :
  dom (extract_in_page page url (default_content url title now))
  = dom (default_content url title now).
Proof.
  assert (forall k v, In k assigned_keys ->
            is_Some (<["status_code" := v]> (default_content url title now) !! k))
    as Hkeys.
  { intros k v Hk. simpl in Hk.
    destruct Hk as [<-|[<-|[<-|[<-|[<-|[<-|[<-|[]]]]]]]];
      first [ rewrite lookup_insert_eq; eauto
            | rewrite lookup_insert_ne by discriminate; eexists; reflexivity ]. }
  assert (forall v, dom (<["status_code" := v]> (default_content url title now))
                    = dom (default_content url title now)) as Hsc.
  { intros v. apply dom_insert_lookup_L. eexists. reflexivity. }
  destruct (extract_in_page_cases page url (default_content url title now))
    as [(e & _ & ->) | [(s & _ & _ & ->) | [(r & e & _ & _ & ->) | (r & t & _ & _ & _ & ->)]]].
  - apply dom_insert_lookup_L. eexists. reflexivity.
  - rewrite dom_insert_lookup_L; [apply Hsc|]. apply Hkeys. simpl. tauto.
  - rewrite dom_insert_lookup_L; [apply Hsc|]. apply Hkeys. simpl. tauto.
  - rewrite set_headings_dom, set_meta_description_dom, set_text_dom;
      try apply Hsc; try (apply Hkeys; simpl; tauto).
    + rewrite set_text_other by discriminate. apply Hkeys. simpl. tauto.
    + rewrite set_meta_description_other, set_text_other by discriminate.
      apply Hkeys. simpl. tauto.
Qed.

(** X6: whatever happens on the page, the record [extract_page_content]
    returns has the url, the title and the timestamp it was created with, an
    empty [content], no links and no images, and exactly the thirteen keys
    of its creation: only the seven assigned keys can differ from it. *)
Theorem extract_page_content_frame new_page now url title rec :
  extract_page_content new_page now url title = Ok rec ->
  rec !! "url" = Some (VStr url)
  /\ rec !! "title" = Some (VStr title)
  /\ rec !! "scraped_at" = Some (VStr now)
  /\ rec !! "content" = Some (VStr EmptyString)
  /\ rec !! "links" = Some (VList [])
  /\ rec !! "images" = Some (VList [])
  /\ (forall k, ~ In k assigned_keys -> rec !! k = default_content url title now !! k)
  /\ dom rec = dom (default_content url title now)
  /\ size rec = 13%nat.
Proof.
  intros H. apply extract_page_content_Ok_inv in H as (page & _ & ->).
  assert (forall k, ~ In k assigned_keys ->
            extract_in_page page url (default_content url title now) !! k
            = default_content url title now !! k) as Hother
    by (intros k Hk; now apply extract_in_page_other).
  assert (forall k : string, k <> "status_code" -> k <> "error" -> k <> "text_content" ->
            k <> "word_count" -> k <> "reading_time" -> k <> "meta_description" ->
            k <> "headings" -> ~ In k assigned_keys) as Hnot.
  { intros k H1 H2 H3 H4 H5 H6 H7 Hin. simpl in Hin.
    destruct Hin as [<-|[<-|[<-|[<-|[<-|[<-|[<-|[]]]]]]]]; congruence. }
  repeat split; try (rewrite Hother by (apply Hnot; discriminate); reflexivity).
  - exact Hother.
  - apply extract_in_page_dom.
  - rewrite <- size_dom, extract_in_page_dom, size_dom. reflexivity.
Qed.

Lemma extract_page_content_frame_witness :
  extract_page_content (Ok long_page) "2024-05-01T10:00:00"
    "https://example.com/long" "Long" = Ok long_page_record
  /\ (long_page_record !! "url" = Some (VStr "https://example.com/long")
      /\ long_page_record !! "title" = Some (VStr "Long")
      /\ long_page_record !! "scraped_at" = Some (VStr "2024-05-01T10:00:00")
      /\ long_page_record !! "content" = Some (VStr EmptyString)
      /\ long_page_record !! "links" = Some (VList [])
      /\ long_page_record !! "images" = Some (VList [])
      /\ (forall k, ~ In k assigned_keys ->
          long_page_record !! k
          = default_content "https://example.com/long" "Long"
              "2024-05-01T10:00:00" !! k)
      /\ dom long_page_record
         = dom (default_content "https://example.com/long" "Long"
                  "2024-05-01T10:00:00")
      /\ size long_page_record = 13%nat).
Proof.
  split; [reflexivity|].
  apply (extract_page_content_frame (Ok long_page) "2024-05-01T10:00:00"
           "https://example.com/long" "Long" long_page_record eq_refl).
Defined.

Lemma extract_in_page_metrics page now url title :
  exists text words,
    extract_in_page page url (default_content url title now) !! "text_content"
    = Some (VStr text)
    /\ extract_in_page page url (default_content url title now) !! "word_count"
       = Some (VInt words)
    /\ extract_in_page page url (default_content url title now) !! "reading_time"
       = Some (VInt (if words =? 0 then 0 else Z.max 1 (words / 200)))
    /\ words = PyStr.count_words false text
    /\ (words = 0 <-> text = EmptyString)
    /\ PyStr.strip text = text.
Proof.
  destruct (extract_in_page_cases page url (default_content url title now))
    as [(e & _ & ->) | [(s & _ & _ & ->) | [(r & e & _ & _ & ->) | (r & t & _ & _ & _ & ->)]]].
  - exists EmptyString, 0. repeat split.
  - exists EmptyString, 0. repeat split.
  - exists EmptyString, 0. repeat split.
  - destruct (set_text_metrics t
                (<["status_code" := status_code_of r]> (default_content url title now)))
      as (text & words & Ht & Hw & Hr & Hrest); [reflexivity..|].
    exists text, words.
    rewrite !set_headings_other, !set_meta_description_other by discriminate.
    auto.
Qed.

(** X7: in every record [extract_page_content] returns, the text is
    trimmed, the word count is the number of white-space separated words of
    that text, it is zero exactly when the text is empty, and the reading
    time is zero for no words and [max(1, words // 200)] otherwise. *)
Theorem extract_page_content_metrics new_page now url title rec :
  extract_page_content new_page now url title = Ok rec ->
  exists text words,
    rec !! "text_content" = Some (VStr text)
    /\ rec !! "word_count" = Some (VInt words)
    /\ rec !! "reading_time"
       = Some (VInt (if words =? 0 then 0 else Z.max 1 (words / 200)))
    /\ words = PyStr.count_words false text
    /\ (words = 0 <-> text = EmptyString)
    /\ PyStr.strip text = text.
Proof.
  intros H. apply extract_page_content_Ok_inv in H as (page & _ & ->).
  apply extract_in_page_metrics.
Qed.

Lemma extract_page_content_metrics_witness :
  extract_page_content (Ok long_page) "2024-05-01T10:00:00"
    "https://example.com/long" "Long" = Ok long_page_record
  /\ exists text words,
       long_page_record !! "text_content" = Some (VStr text)
       /\ long_page_record !! "word_count" = Some (VInt words)
       /\ long_page_record !! "reading_time"
          = Some (VInt (if words =? 0 then 0 else Z.max 1 (words / 200)))
       /\ words = PyStr.count_words false text
       /\ (words = 0 <-> text = EmptyString)
       /\ PyStr.strip text = text.
Proof.
  split; [reflexivity|].
  apply (extract_page_content_metrics (Ok long_page) "2024-05-01T10:00:00"
           "https://example.com/long" "Long" long_page_record eq_refl).
Defined.

Example long_page_record_metrics :
  long_page_record !! "text_content" = Some (VStr "three small words")
  /\ long_page_record !! "word_count" = Some (VInt 3)
  /\ long_page_record !! "reading_time" = Some (VInt 1)
  /\ long_page_record !! "meta_description" = Some (VStr "A page").
Proof. repeat split; vm_compute; reflexivity. Qed.

Lemma extract_in_page_error page now url title :
  extract_in_page page url (default_content url title now) !! "error" = Some VNone
  \/ exists e,
       extract_in_page page url (default_content url title now) !! "error"
       = Some (VStr e)
       /\ e <> EmptyString
       /\ extract_in_page page url (default_content url title now) !! "text_content"
          = Some (VStr EmptyString)
       /\ extract_in_page page url (default_content url title now) !! "word_count"
          = Some (VInt 0)
       /\ extract_in_page page url (default_content url title now) !! "reading_time"
          = Some (VInt 0)
       /\ extract_in_page page url (default_content url title now) !! "headings"
          = Some (VList [])
       /\ extract_in_page page url (default_content url title now) !! "meta_description"
          = Some (VStr EmptyString).
Proof.
  destruct (extract_in_page_cases page url (default_content url title now))
    as [(e & _ & ->) | [(s & _ & _ & ->) | [(r & e & _ & _ & ->) | (r & t & _ & _ & _ & ->)]]].
  - right. eexists. split; [apply lookup_insert_eq|]. repeat split. discriminate.
  - right. eexists. split; [apply lookup_insert_eq|]. repeat split. discriminate.
  - right. eexists. split; [apply lookup_insert_eq|]. repeat split. discriminate.
  - left. rewrite set_headings_other, set_meta_description_other, set_text_error
      by discriminate.
    reflexivity.
Qed.

(** X8: a record [extract_page_content] returns either has no error, or
    has a non-empty error message and nothing extracted: empty text, no
    words, no reading time, no headings, no meta description. *)
Theorem extract_page_content_error_or_content new_page now url title rec :
  extract_page_content new_page now url title = Ok rec ->
  rec !! "error" = Some VNone
  \/ exists e,
       rec !! "error" = Some (VStr e)
       /\ e <> EmptyString
       /\ rec !! "text_content" = Some (VStr EmptyString)
       /\ rec !! "word_count" = Some (VInt 0)
       /\ rec !! "reading_time" = Some (VInt 0)
       /\ rec !! "headings" = Some (VList [])
       /\ rec !! "meta_description" = Some (VStr EmptyString).
Proof.
  intros H. apply extract_page_content_Ok_inv in H as (page & _ & ->).
  apply extract_in_page_error.
Qed.

Lemma extract_page_content_error_or_content_witness :
  extract_page_content (Ok unreachable_content_page)
    "2024-05-01T10:00:00" "https://example.com/" "Example" = Ok unreachable_record
  /\ (unreachable_record !! "error" = Some VNone
      \/ exists e,
           unreachable_record !! "error" = Some (VStr e)
           /\ e <> EmptyString
           /\ unreachable_record !! "text_content" = Some (VStr EmptyString)
           /\ unreachable_record !! "word_count" = Some (VInt 0)
           /\ unreachable_record !! "reading_time" = Some (VInt 0)
           /\ unreachable_record !! "headings" = Some (VList [])
           /\ unreachable_record !! "meta_description" = Some (VStr EmptyString)).
Proof.
  split; [reflexivity|].
  apply (extract_page_content_error_or_content (Ok unreachable_content_page)
           "2024-05-01T10:00:00" "https://example.com/" "Example"
           unreachable_record eq_refl).
Defined.

(** ** Headings *)

Lemma take_length n s : (String.length (PyStr.take n s) <= n)%nat.
Proof.
  revert s. induction n as [|n IH]; intros s; [simpl; lia|].
  destruct s as [|c s]; simpl; [lia|]. specialize (IH s). lia.
Qed.

Lemma heading_entry_ok heading v :
  heading_entry heading = Ok (Some v) -> heading_ok v.
Proof.
  unfold heading_entry. intros H.
  destruct (h_tag_name heading) as [tag|]; [|discriminate]. res_simpl.
  destruct (h_text_content heading) as [[s|]|]; [| discriminate | discriminate].
  res_simpl. destruct (accept_text (Some s)) eqn:Ea; [|discriminate].
  injection H as <-. exists tag, (PyStr.take 200 (PyStr.strip s)).
  split; [reflexivity|].
  unfold accept_text in Ea. apply andb_true_iff in Ea as [_ Ea].
  destruct (strip_head s) as [E | (c & r & E & Hc)]; rewrite E in *; [discriminate|].
  split.
  - split; [simpl; lia | apply take_length].
  - exists c, (PyStr.take 199 r). split; [reflexivity | exact Hc].
Qed.

Lemma collect_headings_spec headings : forall acc,
  exists new,
    collect_headings headings acc = (acc ++ new)%list
    /\ (length new <= length headings)%nat
    /\ Forall heading_ok new.
Proof.
  induction headings as [|h rest IH]; intros acc.
  - exists []. rewrite app_nil_r. repeat split; [simpl; lia | constructor].
  - cbn [collect_headings].
    destruct (heading_entry h) as [[v|]|] eqn:E.
    + destruct (IH (acc ++ [v])%list) as (new & -> & Hl & Hf).
      exists (v :: new). rewrite <- app_assoc. repeat split.
      * simpl. lia.
      * constructor; [eapply heading_entry_ok, E | exact Hf].
    + destruct (IH acc) as (new & -> & Hl & Hf). exists new.
      repeat split; [simpl; lia | exact Hf].
    + destruct (IH acc) as (new & -> & Hl & Hf). exists new.
      repeat split; [simpl; lia | exact Hf].
Qed.

Lemma extract_in_page_headings page now url title :
  exists hs,
    extract_in_page page url (default_content url title now) !! "headings"
    = Some (VList hs)
    /\ (length hs <= 20)%nat
    /\ Forall heading_ok hs.
Proof.
  destruct (extract_in_page_cases page url (default_content url title now))
    as [(e & _ & ->) | [(s & _ & _ & ->) | [(r & e & _ & _ & ->) | (r & t & _ & _ & _ & ->)]]].
  - exists []. repeat split; [simpl; lia | constructor].
  - exists []. repeat split; [simpl; lia | constructor].
  - exists []. repeat split; [simpl; lia | constructor].
  - unfold set_headings. destruct (cp_headings page) as [headings|].
    + destruct (collect_headings_spec (firstn 20 headings) []) as (new & -> & Hl & Hf).
      exists new. rewrite lookup_insert_eq. repeat split; [|exact Hf].
      rewrite length_firstn in Hl. lia.
    + exists []. rewrite set_meta_description_other, set_text_other by discriminate.
      repeat split; [simpl; lia | constructor].
Qed.

Lemma collect_headings_listed headings : forall acc,
  exists new,
    collect_headings headings acc = (acc ++ new)%list
    /\ headings_listed headings new.
Proof.
  induction headings as [|h rest IH]; intros acc.
  - exists []. rewrite app_nil_r. split; [reflexivity | constructor].
  - cbn [collect_headings]. unfold heading_entry.
    destruct (h_tag_name h) as [tag|e] eqn:Etag; res_simpl.
    2:{ destruct (IH acc) as (new & -> & Hl). exists new.
        split; [reflexivity | eapply listed_no_tag; eauto]. }
    destruct (h_text_content h) as [[s|]|e] eqn:Etext; res_simpl.
    + destruct (accept_text (Some s)) eqn:Ea.
      * destruct (IH (acc ++ [VDict [("level", VStr tag);
                                     ("text", VStr (PyStr.take 200 (PyStr.strip s)))]])%list)
          as (new & -> & Hl).
        eexists. rewrite <- app_assoc. split; [reflexivity|].
        now apply listed_entry.
      * destruct (IH acc) as (new & -> & Hl). exists new.
        split; [reflexivity | eapply listed_blank; eauto].
    + destruct (IH acc) as (new & -> & Hl). exists new.
      split; [reflexivity | eapply listed_blank; eauto].
    + destruct (IH acc) as (new & -> & Hl). exists new.
      split; [reflexivity | eapply listed_no_text; eauto].
Qed.

(** The elements determine the entries listed for them. *)
Lemma headings_listed_functional headings hs :
  headings_listed headings hs ->
  forall hs', headings_listed headings hs' -> hs = hs'.
Proof.
  induction 1 as [| h rest entries tag s Ht Hx Ha _ IH
                  | h rest entries e Ht _ IH
                  | h rest entries e Hx _ IH
                  | h rest entries text Hx Ha _ IH];
    intros hs' H'; inversion H'; subst; try congruence; auto.
  - assert (tag0 = tag) by congruence. assert (s0 = s) by congruence.
    subst. f_equal. auto.
Qed.

Lemma extract_in_page_headings_listed page now url title :
  let rec := extract_in_page page url (default_content url title now) in
  exists hs,
    rec !! "headings" = Some (VList hs)
    /\ (rec !! "error" = Some VNone ->
        forall headings, cp_headings page = Ok headings ->
          headings_listed (firstn 20 headings) hs)
    /\ ((exists e, rec !! "error" = Some (VStr e))
        \/ (exists e, cp_headings page = Raise e) ->
        hs = []).
Proof.
  intros rec. subst rec.
  destruct (extract_in_page_cases page url (default_content url title now))
    as [(e & _ & ->) | [(s & _ & _ & ->) | [(r & e & _ & _ & ->) | (r & t & _ & _ & _ & ->)]]].
  - exists []. split; [reflexivity|]. split; [|reflexivity].
    rewrite lookup_insert_eq. discriminate.
  - exists []. split; [reflexivity|]. split; [|reflexivity].
    rewrite lookup_insert_eq. discriminate.
  - exists []. split; [reflexivity|]. split; [|reflexivity].
    rewrite lookup_insert_eq. discriminate.
  - assert (forall e,
              set_headings page
                (set_meta_description page
                   (set_text t (<["status_code" := status_code_of r]>
                                  (default_content url title now))))
              !! "error" = Some (VStr e) -> False) as Herr.
    { intros e. rewrite set_headings_other, set_meta_description_other,
        set_text_other by discriminate.
      rewrite lookup_insert_ne by discriminate. discriminate. }
    unfold set_headings in *. destruct (cp_headings page) as [headings|e0].
    + destruct (collect_headings_listed (firstn 20 headings) []) as (new & E & Hl).
      rewrite E in *. exists new. rewrite lookup_insert_eq.
      split; [reflexivity|]. split.
      * intros _ headings' [= <-]. exact Hl.
      * intros [(e & He) | (e & He)]; [destruct (Herr e He) | discriminate].
    + exists []. rewrite set_meta_description_other, set_text_other by discriminate.
      split; [reflexivity|]. split; [|reflexivity].
      intros _ headings' H'. discriminate.
Qed.

(** X9: the headings of a record are a list of at most 20 entries, each a
    level with a text of 1 to 200 characters that starts with no white
    space.  In a record without an error they are exactly the entries of
    the first 20 heading elements of the page, in page order: an element
    whose tag and text are read and whose text is not blank gives the entry
    of its own tag and its trimmed text cut at 200 characters, and an
    element whose tag or text cannot be read, or whose text is missing or
    blank, gives none.  In a record with an error, or when the heading
    elements cannot be listed, the list is empty. *)
Theorem extract_page_content_headings new_page now url title rec :
  extract_page_content new_page now url title = Ok rec ->
  exists hs,
    rec !! "headings" = Some (VList hs)
    /\ (length hs <= 20)%nat
    /\ Forall heading_ok hs
    /\ exists page,
         new_page = Ok page
         /\ (rec !! "error" = Some VNone ->
             forall headings, cp_headings page = Ok headings ->
               headings_listed (firstn 20 headings) hs
               /\ forall hs', headings_listed (firstn 20 headings) hs' -> hs' = hs)
         /\ ((exists e, rec !! "error" = Some (VStr e))
             \/ (exists e, cp_headings page = Raise e) ->
             hs = []).
Proof.
  intros H. apply extract_page_content_Ok_inv in H as (page & Hp & ->).
  destruct (extract_in_page_headings page now url title) as (hs & Hh & Hlen & Hok).
  destruct (extract_in_page_headings_listed page now url title)
    as (hs' & Hh' & Hlisted & Hempty).
  rewrite Hh in Hh'. injection Hh' as <-.
  exists hs. repeat split; try assumption.
  exists page. split; [exact Hp|]. split; [|exact Hempty].
  intros He headings Hhs. split; [now apply Hlisted|].
  intros hs' H'. symmetry.
  eapply headings_listed_functional; [apply Hlisted|]; eassumption.
Qed.

Lemma extract_page_content_headings_witness :
  extract_page_content (Ok mixed_headings_page) "2024-05-01T10:00:00"
    "https://example.com/mixed" "Mixed" = Ok mixed_headings_record
  /\ exists hs,
       mixed_headings_record !! "headings" = Some (VList hs)
       /\ (length hs <= 20)%nat
       /\ Forall heading_ok hs
       /\ exists page,
            Ok mixed_headings_page = Ok page
            /\ (mixed_headings_record !! "error" = Some VNone ->
                forall headings, cp_headings page = Ok headings ->
                  headings_listed (firstn 20 headings) hs
                  /\ forall hs', headings_listed (firstn 20 headings) hs' -> hs' = hs)
            /\ ((exists e, mixed_headings_record !! "error" = Some (VStr e))
                \/ (exists e, cp_headings page = Raise e) ->
                hs = []).
Proof.
  split; [reflexivity|].
  apply (extract_page_content_headings (Ok mixed_headings_page) "2024-05-01T10:00:00"
           "https://example.com/mixed" "Mixed" mixed_headings_record eq_refl).
Defined.

(** Of the five heading elements of [mixed_headings_page] only the readable,
    non-blank one is listed, under its own tag. *)
Example mixed_headings_record_headings :
  mixed_headings_record !! "error" = Some VNone
  /\ mixed_headings_record !! "headings"
     = Some (VList [VDict [("level", VStr "h3"); ("text", VStr "Kept heading")]]).
Proof. split; reflexivity. Qed.

(** The first 20 of the 25 headings of [long_page] are listed. *)
Example long_page_record_headings :
  exists hs,
    long_page_record !! "headings" = Some (VList hs)
    /\ length hs = 20%nat
    /\ hs !! 0%nat = Some (VDict [("level", VStr "h2"); ("text", VStr "Section 1")]).
Proof. eexists. split; [vm_compute; reflexivity|]. split; reflexivity. Qed.

(** ** The main-content script *)

Lemma first_long_text_some document selectors t :
  first_long_text document selectors = Some t ->
  (200 < String.length t)%nat
  /\ exists sel, In sel selectors /\ query_selector document sel = Some t.
Proof.
  induction selectors as [|s rest IH]; [discriminate|]. cbn [first_long_text].
  destruct (query_selector document s) as [t'|] eqn:Eq.
  - destruct (200 <? String.length t')%nat eqn:El.
    + intros [= <-]. apply Nat.ltb_lt in El. split; [exact El|].
      exists s. split; [now left | exact Eq].
    + intros H. destruct (IH H) as (Hl & sel & Hin & Hsel).
      split; [exact Hl|]. exists sel. split; [now right | exact Hsel].
  - intros H. destruct (IH H) as (Hl & sel & Hin & Hsel).
    split; [exact Hl|]. exists sel. split; [now right | exact Hsel].
Qed.

Lemma first_long_text_skip document pre rest :
  Forall (fun s => forall t, query_selector document s = Some t ->
                             (String.length t <= 200)%nat) pre ->
  first_long_text document (pre ++ rest) = first_long_text document rest.
Proof.
  induction 1 as [|s pre Hs _ IH]; [reflexivity|]. cbn [app first_long_text].
  destruct (query_selector document s) as [t|] eqn:Eq; [|exact IH].
  assert ((200 <? String.length t)%nat = false) as ->; [|exact IH].
  apply Nat.ltb_ge. now apply Hs.
Qed.

(** X10: the main-content script returns the text of the earliest content
    selector whose element holds more than 200 characters, and the text of
    the body when there is none; so what it returns is the body's text or a
    text of more than 200 characters. *)
Theorem main_content_script_choice document :
  (forall pre sel post t,
     content_selectors = (pre ++ sel :: post)%list ->
     Forall (fun s => forall t', query_selector document s = Some t' ->
                                 (String.length t' <= 200)%nat) pre ->
     query_selector document sel = Some t ->
     (200 < String.length t)%nat ->
     main_content_script document = t)
  /\ (Forall (fun s => forall t', query_selector document s = Some t' ->
                                  (String.length t' <= 200)%nat) content_selectors ->
      main_content_script document = body_inner_text document)
  /\ (main_content_script document = body_inner_text document
      \/ ((200 < String.length (main_content_script document))%nat
          /\ exists sel, In sel content_selectors
               /\ query_selector document sel = Some (main_content_script document))).
Proof.
  unfold main_content_script. repeat split.
  - intros pre sel post t -> Hpre Hsel Hl.
    rewrite (first_long_text_skip _ _ _ Hpre). cbn [first_long_text].
    rewrite Hsel. apply Nat.ltb_lt in Hl. now rewrite Hl.
  - intros Hall.
    rewrite <- (app_nil_r content_selectors), (first_long_text_skip _ _ _ Hall).
    reflexivity.
  - destruct (first_long_text document content_selectors) as [t|] eqn:E; [|now left].
    right. now apply first_long_text_some.
Qed.

Lemma main_content_script_choice_witness :
  (content_selectors
   = ([] ++ "main" :: ["article"; ".content"; ".post"; ".article-body";
                       ".entry-content"; ".post-content"])%list
   /\ Forall (fun s => forall t', query_selector article_document s = Some t' ->
                                  (String.length t' <= 200)%nat) []
   /\ query_selector article_document "main" = Some (repeat_char 350 "a")
   /\ (200 < String.length (repeat_char 350 "a"))%nat)
  /\ main_content_script article_document = repeat_char 350 "a".
Proof.
  assert (200 < String.length (repeat_char 350 "a"))%nat as Hl
    by (apply Nat.ltb_lt; vm_compute; reflexivity).
  split.
  - repeat split; [constructor | exact Hl].
  - apply (proj1 (main_content_script_choice article_document)
             [] "main" _ (repeat_char 350 "a") eq_refl (Forall_nil_2 _) eq_refl Hl).
Defined.

Example article_document_not_body :
  String.length (main_content_script article_document) = 350%nat
  /\ String.length (body_inner_text article_document) = 50%nat.
Proof. split; vm_compute; reflexivity. Qed.

(** ** File names *)

Lemma has_char_keep_chars keep c s :
  UrlParse.has_char c (keep_chars keep s) = true ->
  keep c = true /\ UrlParse.has_char c s = true.
Proof.
  induction s as [|x s IH]; [discriminate|].
  cbn [keep_chars UrlParse.has_char]. destruct (keep x) eqn:Ek.
  - cbn [UrlParse.has_char]. intros H. apply orb_true_iff in H as [H|H].
    + rewrite H. apply Ascii.eqb_eq in H as ->. auto.
    + destruct (IH H) as [Hk Hc]. rewrite Hc, orb_true_r. auto.
  - intros H. destruct (IH H) as [Hk Hc]. rewrite Hc, orb_true_r. auto.
Qed.

Lemma has_char_lstrip c s :
  UrlParse.has_char c (PyStr.lstrip s) = true -> UrlParse.has_char c s = true.
Proof.
  induction s as [|x s IH]; [discriminate|]. cbn [PyStr.lstrip].
  destruct (PyStr.isspace x); [|auto].
  intros H. cbn [UrlParse.has_char]. rewrite (IH H). apply orb_true_r.
Qed.

Lemma has_char_rstrip c s :
  UrlParse.has_char c (PyStr.rstrip s) = true -> UrlParse.has_char c s = true.
Proof.
  induction s as [|x s IH]; [discriminate|]. cbn [PyStr.rstrip].
  destruct (PyStr.rstrip s) as [|y r].
  - destruct (PyStr.isspace x); [discriminate|].
    cbn [UrlParse.has_char]. rewrite orb_false_r. intros ->. reflexivity.
  - intros H. change (Ascii.eqb c x || UrlParse.has_char c (String y r) = true) in H.
    cbn [UrlParse.has_char]. apply orb_true_iff in H as [-> | H]; [reflexivity|].
    rewrite (IH H). apply orb_true_r.
Qed.

Lemma has_char_replace_space by_char c s :
  UrlParse.has_char c (replace_space by_char s) = true ->
  c = by_char \/ (c <> " "%char /\ UrlParse.has_char c s = true).
Proof.
  induction s as [|x s IH]; [discriminate|].
  cbn [replace_space UrlParse.has_char]. intros H.
  apply orb_true_iff in H as [H|H].
  - apply Ascii.eqb_eq in H. destruct (Ascii.eqb x " ") eqn:Ex; [now left|].
    right. subst c. split.
    + intros ->. rewrite Ascii.eqb_refl in Ex. discriminate.
    + now rewrite Ascii.eqb_refl.
  - destruct (IH H) as [-> | [Hne Hc]]; [now left|].
    right. split; [exact Hne|]. rewrite Hc. apply orb_true_r.
Qed.

(** X11: whatever the query, the part of the file names made from it
    holds only word characters, hyphens and white space other than the
    blank: no blank, no slash, no backslash, no dot and no colon. *)
Theorem safe_query_file_name_safe query :
  (forall c, UrlParse.has_char c (safe_query query) = true ->
             kept_char c = true /\ c <> " "%char)
  /\ UrlParse.has_char "/" (safe_query query) = false
  /\ UrlParse.has_char (ascii_of_N 92) (safe_query query) = false
  /\ UrlParse.has_char "." (safe_query query) = false
  /\ UrlParse.has_char ":" (safe_query query) = false
  /\ UrlParse.has_char " " (safe_query query) = false.
Proof.
  assert (forall c, UrlParse.has_char c (safe_query query) = true ->
                    kept_char c = true /\ c <> " "%char) as Hc.
  { intros c H. unfold safe_query in H.
    apply has_char_replace_space in H as [-> | [Hne H]].
    - split; [reflexivity | discriminate].
    - split; [|exact Hne]. unfold PyStr.strip in H.
      apply has_char_rstrip, has_char_lstrip, has_char_keep_chars in H.
      apply H. }
  split; [exact Hc|].
  repeat split;
    match goal with
    | |- UrlParse.has_char ?c ?s = false =>
        destruct (UrlParse.has_char c s) eqn:E; [|reflexivity];
        destruct (Hc c E) as [Hk Hne]; first [discriminate Hk | now destruct Hne]
    end.
Qed.

Example safe_query_example :
  safe_query "  what is ../etc/passwd? a-b " = "what_is_etcpasswd_a-b"
  /\ detailed_file_name "rocq: the prover" "20240501_100000"
     = "rocq_the_prover_20240501_100000_detailed.json".
Proof. split; vm_compute; reflexivity. Qed.

(** ** Merging what the tasks of a run return *)

Section RunFacts.

Variable pages : nat -> res ContentPage.
Variable clock : nat -> string.

(** What a task of the run returns has the url and the title it was given
    and none of the keys only a search result has. *)
Lemma run_pages_record i url title rec :
  run_pages pages clock i url title = Ok rec ->
  rec !! "url" = Some (VStr url)
  /\ rec !! "title" = Some (VStr title)
  /\ rec !! "position" = None
  /\ rec !! "snippet" = None
  /\ rec !! "domain" = None
  /\ rec !! "search_query" = None.
Proof.
  unfold run_pages. intros H.
  apply extract_page_content_Ok_inv in H as (page & _ & ->).
  assert (forall k : string, k <> "status_code" -> k <> "error" -> k <> "text_content" ->
            k <> "word_count" -> k <> "reading_time" -> k <> "meta_description" ->
            k <> "headings" -> ~ In k assigned_keys) as Hnot.
  { intros k H1 H2 H3 H4 H5 H6 H7 Hin. simpl in Hin.
    destruct Hin as [<-|[<-|[<-|[<-|[<-|[<-|[<-|[]]]]]]]]; congruence. }
  repeat split; (rewrite extract_in_page_other by (apply Hnot; discriminate));
    reflexivity.
Qed.

(** The combined record of a task of the run. *)
Lemma combine_run_pages now_i i sr :
  exists rec,
    rec = combine now_i sr (run_pages pages clock i (url sr) (title sr))
    /\ rec !! "position" = Some (VInt (position sr))
    /\ rec !! "title" = Some (VStr (title sr))
    /\ rec !! "url" = Some (VStr (url sr))
    /\ rec !! "snippet" = Some (VStr (snippet sr))
    /\ rec !! "domain" = Some (VStr (domain sr))
    /\ rec !! "search_query" = Some (VStr (search_query sr))
    /\ is_Some (rec !! "error")
    /\ is_Some (rec !! "scraped_at").
Proof.
  eexists. split; [reflexivity|]. unfold combine.
  destruct (run_pages pages clock i (url sr) (title sr)) as [rec|e] eqn:E.
  - destruct (run_pages_record _ _ _ _ E) as (Hu & Ht & Hp & Hs & Hd & Hq).
    unfold run_pages in E.
    apply extract_page_content_Ok_inv in E as (page & _ & Hrec).
    assert (is_Some (rec !! "error")) as [ev He].
    { rewrite Hrec.
      destruct (extract_in_page_error page (clock i) (url sr) (title sr))
        as [He | (e & He & _)]; rewrite He; eauto. }
    assert (rec !! "scraped_at" = Some (VStr (clock i))) as Hsc.
    { rewrite Hrec, extract_in_page_other; [reflexivity|].
      simpl. intros [H|[H|[H|[H|[H|[H|[H|[]]]]]]]]; discriminate. }
    rewrite (lookup_union_Some_l _ _ _ _ Hu), (lookup_union_Some_l _ _ _ _ Ht).
    rewrite (lookup_union_Some_l _ _ _ _ He), (lookup_union_Some_l _ _ _ _ Hsc).
    rewrite !lookup_union_r by assumption.
    repeat split; eauto.
  - repeat split; eexists; reflexivity.
Qed.

End RunFacts.

Section RunSummaries.

Variable pages : nat -> res ContentPage.
Variable clock : nat -> string.

(** The headings and the words of the combined record of a task. *)
Lemma combine_run_pages_counts now_i i sr :
  exists count words,
    py_len (py_get (combine now_i sr (run_pages pages clock i (url sr) (title sr)))
              "headings" (VList [])) = Ok count
    /\ 0 <= count <= 20
    /\ py_get (combine now_i sr (run_pages pages clock i (url sr) (title sr)))
         "word_count" (VInt 0) = VInt words
    /\ 0 <= words
    /\ (py_bool (py_get (combine now_i sr (run_pages pages clock i (url sr) (title sr)))
                   "error" VNone) = true -> words = 0).
Proof.
  unfold combine.
  destruct (run_pages pages clock i (url sr) (title sr)) as [rec|e] eqn:E.
  - unfold run_pages in E.
    apply extract_page_content_Ok_inv in E as (page & _ & ->).
    destruct (extract_in_page_headings page (clock i) (url sr) (title sr))
      as (hs & Hh & Hl & _).
    destruct (extract_in_page_metrics page (clock i) (url sr) (title sr))
      as (text & words & _ & Hw & _ & Hcount & _).
    exists (Z.of_nat (length hs)), words. unfold py_get.
    rewrite (lookup_union_Some_l _ _ _ _ Hh), (lookup_union_Some_l _ _ _ _ Hw).
    cbn [default py_len]. repeat split; try lia.
    + rewrite Hcount. apply count_words_nonneg.
    + destruct (extract_in_page_error page (clock i) (url sr) (title sr))
        as [He | (e & He & _ & _ & Hw0 & _)];
        rewrite (lookup_union_Some_l _ _ _ _ He); cbn [default py_bool];
        [discriminate|].
      intros _. rewrite Hw in Hw0. now injection Hw0.
  - exists 0, 0. repeat split; try lia.
Qed.

Lemma combine_failure_summary now_i sr e :
  summary_entry (combine now_i sr (Raise e))
  = Ok {| s_position := VInt (position sr);
          s_title := VStr (title sr);
          s_url := VStr (url sr);
          s_domain := VStr (domain sr);
          s_snippet := VStr (snippet sr);
          s_word_count := VInt 0;
          s_reading_time := VInt 0;
          s_headings_count := 0;
          s_has_error := PyStr.truthy (Some e);
          s_status_code := VNone |}.
Proof. reflexivity. Qed.

(** The summary entry of the combined record of a task. *)
Lemma summary_entry_run now_i i sr :
  exists s,
    summary_entry (combine now_i sr (run_pages pages clock i (url sr) (title sr)))
    = Ok s
    /\ s_position s = VInt (position sr)
    /\ s_title s = VStr (title sr)
    /\ s_url s = VStr (url sr)
    /\ s_domain s = VStr (domain sr)
    /\ s_snippet s = VStr (snippet sr)
    /\ 0 <= s_headings_count s <= 20
    /\ exists words, s_word_count s = VInt words /\ 0 <= words
         /\ (s_has_error s = true -> words = 0).
Proof.
  destruct (combine_run_pages pages clock now_i i sr)
    as (rec & -> & Hp & Ht & Hu & Hs & Hd & _).
  destruct (combine_run_pages_counts now_i i sr)
    as (count & words & Hc & Hcb & Hw & Hwn & He).
  unfold summary_entry. rewrite Hc. res_simpl.
  eexists. split; [reflexivity|]. cbn.
  unfold py_get at 1 2 3 4 5. rewrite Hp, Ht, Hu, Hs, Hd. cbn [default].
  repeat split; try lia. exists words. auto.
Qed.

End RunSummaries.

Lemma summary_results_ok (results : list (gmap string pyval)) :
  (forall i r, results !! i = Some r -> exists s, summary_entry r = Ok s) ->
  exists entries,
    summary_results results = Ok entries
    /\ length entries = length results
    /\ forall i r, results !! i = Some r ->
         exists s, entries !! i = Some s /\ summary_entry r = Ok s.
Proof.
  induction results as [|r rest IH]; intros H.
  - exists []. repeat split. intros i r Hi. destruct i; discriminate.
  - destruct (H 0%nat r eq_refl) as [s Hs].
    destruct IH as (entries & He & Hl & Hn).
    { intros i r' Hi. apply (H (S i) r' Hi). }
    exists (s :: entries). cbn [summary_results]. rewrite Hs. res_simpl.
    rewrite He. res_simpl. repeat split; [simpl; now rewrite Hl|].
    intros [|i] r' Hi.
    + injection Hi as <-. eauto.
    + apply (Hn i r' Hi).
Qed.

(** X12: in a run, the combined record at index i has the position, title,
    url, snippet, domain and query of the i-th search result, whatever its
    task returned or raised, and always an error field and a timestamp: the
    merge changes nothing of what the search found. *)
Theorem scrape_run_keeps_search_fields pages clock now search_results :
  forall i sr, search_results !! i = Some sr ->
    exists rec,
      scrape_search_results (run_pages pages clock) now search_results !! i = Some rec
      /\ rec !! "position" = Some (VInt (position sr))
      /\ rec !! "title" = Some (VStr (title sr))
      /\ rec !! "url" = Some (VStr (url sr))
      /\ rec !! "snippet" = Some (VStr (snippet sr))
      /\ rec !! "domain" = Some (VStr (domain sr))
      /\ rec !! "search_query" = Some (VStr (search_query sr))
      /\ is_Some (rec !! "error")
      /\ is_Some (rec !! "scraped_at").
Proof.
  intros i sr Hi.
  rewrite (scrape_search_results_lookup _ now _ _ _ Hi).
  destruct (combine_run_pages pages clock (now i) i sr) as (rec & -> & H).
  eexists. split; [reflexivity | exact H].
Qed.

(** X13: on the records of a run the summary of [save_results] never
    fails; it has one entry per search result, in order, carrying the
    position, title, url, domain and snippet of that search result, a
    headings count between 0 and 20, and a word count that is 0 whenever the
    entry is flagged as an error. *)
Theorem summary_results_of_run pages clock now search_results :
  exists entries,
    summary_results
      (scrape_search_results (run_pages pages clock) now search_results) = Ok entries
    /\ length entries = length search_results
    /\ forall i sr, search_results !! i = Some sr ->
         exists s,
           entries !! i = Some s
           /\ s_position s = VInt (position sr)
           /\ s_title s = VStr (title sr)
           /\ s_url s = VStr (url sr)
           /\ s_domain s = VStr (domain sr)
           /\ s_snippet s = VStr (snippet sr)
           /\ 0 <= s_headings_count s <= 20
           /\ exists words, s_word_count s = VInt words /\ 0 <= words
                /\ (s_has_error s = true -> words = 0).
Proof.
  destruct (summary_results_ok
              (scrape_search_results (run_pages pages clock) now search_results))
    as (entries & He & Hl & Hn).
  { intros i r Hi.
    assert (exists sr, search_results !! i = Some sr) as [sr Hsr].
    { apply lookup_lt_is_Some. apply lookup_lt_Some in Hi.
      now rewrite scrape_search_results_length in Hi. }
    rewrite (scrape_search_results_lookup _ now _ _ _ Hsr) in Hi. injection Hi as <-.
    destruct (summary_entry_run pages clock (now i) i sr) as (s & Hs & _). eauto. }
  exists entries. split; [exact He|]. split.
  - now rewrite Hl, scrape_search_results_length.
  - intros i sr Hsr.
    destruct (Hn i _ (scrape_search_results_lookup _ now _ _ _ Hsr)) as (s & Hi & Hs).
    destruct (summary_entry_run pages clock (now i) i sr) as (s' & Hs' & Hrest).
    rewrite Hs in Hs'. injection Hs' as <-. exists s. split; [exact Hi | exact Hrest].
Qed.

(** X14: the summary of a task that raised takes the defaults of the
    missing keys, 0 words, 0 reading time, 0 headings and no status code,
    and flags the error exactly when the exception has a non-empty message:
    a failure with an empty message is not flagged. *)
Theorem summary_entry_of_failure now_i sr e :
  exists s,
    summary_entry (combine now_i sr (Raise e)) = Ok s
    /\ s_word_count s = VInt 0
    /\ s_reading_time s = VInt 0
    /\ s_headings_count s = 0
    /\ s_status_code s = VNone
    /\ s_url s = VStr (url sr)
    /\ (s_has_error s = true <-> e <> EmptyString).
Proof.
  eexists. split; [apply combine_failure_summary|]. cbn.
  repeat split; destruct e; cbn; intros; congruence.
Qed.

(** ** The statistics and the whole run *)

Lemma sum_word_counts_spec (results : list (gmap string pyval)) :
  Forall (fun r => exists words,
            py_get r "word_count" (VInt 0) = VInt words /\ 0 <= words
            /\ (py_bool (py_get r "error" VNone) = true -> words = 0)) results ->
  forall total,
    exists n,
      sum_word_counts total results = Ok (total + n)
      /\ 0 <= n
      /\ sum_word_counts total
           (List.filter (fun r => negb (py_bool (py_get r "error" VNone))) results)
         = Ok (total + n).
Proof.
  induction 1 as [|r rest (words & Hw & Hpos & Herr) _ IH]; intros total.
  - exists 0. rewrite Z.add_0_r. repeat split. lia.
  - destruct (IH (total + words)) as (n & Hs & Hn & Hf).
    cbn [sum_word_counts List.filter]. rewrite Hw.
    destruct (py_bool (py_get r "error" VNone)) eqn:Eb; cbn [negb].
    + assert (words = 0) as Hz by auto. subst words.
      rewrite Z.add_0_r in Hs, Hf |- *.
      exists n. rewrite Hs, Hf. repeat split. exact Hn.
    + exists (words + n). cbn [sum_word_counts]. rewrite Hw, Hs, Hf.
      repeat split; [f_equal; lia | lia | f_equal; lia].
Qed.

(** X15: on the records of a run the word total never fails, is not
    negative, and equals the total over the records counted as successful:
    a record with an error adds no words.  The number of successes is at
    most the number of search results. *)
Theorem run_statistics pages clock now search_results :
  exists n,
    total_words (scrape_search_results (run_pages pages clock) now search_results)
    = Ok n
    /\ 0 <= n
    /\ total_words
         (List.filter (fun r => negb (py_bool (py_get r "error" VNone)))
            (scrape_search_results (run_pages pages clock) now search_results))
       = Ok n
    /\ 0 <= successful
              (scrape_search_results (run_pages pages clock) now search_results)
         <= Z.of_nat (length search_results).
Proof.
  destruct (sum_word_counts_spec
              (scrape_search_results (run_pages pages clock) now search_results))
    with (total := 0) as (n & Hs & Hn & Hf).
  { apply Forall_lookup. intros i r Hi.
    assert (exists sr, search_results !! i = Some sr) as [sr Hsr].
    { apply lookup_lt_is_Some. apply lookup_lt_Some in Hi.
      now rewrite scrape_search_results_length in Hi. }
    rewrite (scrape_search_results_lookup _ now _ _ _ Hsr) in Hi. injection Hi as <-.
    destruct (combine_run_pages_counts pages clock (now i) i sr)
      as (count & words & _ & _ & Hw & Hpos & Herr).
    exists words. auto. }
  exists n. unfold total_words. rewrite Hs, Hf. repeat split; try assumption.
  - unfold successful. lia.
  - unfold successful.
    pose proof (filter_length_le
                  (fun r => negb (py_bool (py_get r "error" VNone)))
                  (scrape_search_results (run_pages pages clock) now search_results)).
    rewrite scrape_search_results_length in H. lia.
Qed.

Lemma run_search_and_scrape_inv urlparse_netloc setup_browser new_page debug
    pages clock now save_results cleanup query max_results detailed :
  run_search_and_scrape urlparse_netloc setup_browser new_page debug pages clock now
    save_results cleanup query max_results = Ok (Some detailed) ->
  exists search_results,
    search_google urlparse_netloc new_page debug query max_results = Ok search_results
    /\ search_results <> []
    /\ detailed = scrape_search_results (run_pages pages clock) now search_results
    /\ setup_browser = Ok tt /\ save_results detailed = Ok tt /\ cleanup = Ok tt.
Proof.
  unfold run_search_and_scrape, try_finally. intros H.
  destruct cleanup as [[]|]; [|discriminate].
  destruct setup_browser as [[]|]; [|discriminate]. res_simpl.
  destruct (search_google _ _ _ _ _) as [srs|]; [|discriminate]. res_simpl.
  destruct srs as [|sr srs]; [discriminate|].
  destruct (save_results _) as [[]|] eqn:Es; [|discriminate]. res_simpl.
  destruct (total_words _); [|discriminate]. res_simpl.
  injection H as <-. exists (sr :: srs). repeat split; try assumption. discriminate.
Qed.

(** X16: what a run hands to [save_results] is never empty; its i-th
    record has position i+1, the query of the run and a url that starts with
    [http] and contains no excluded substring; with a non-negative
    [max_results] it has at most that many records; and the run returns
    only after the browser was set up, the records were saved and the
    cleanup went through. *)
Theorem run_search_and_scrape_saved urlparse_netloc setup_browser new_page debug
    pages clock now save_results cleanup query max_results detailed :
  run_search_and_scrape urlparse_netloc setup_browser new_page debug pages clock now
    save_results cleanup query max_results = Ok (Some detailed) ->
  detailed <> []
  /\ (0 <= max_results -> Z.of_nat (length detailed) <= max_results)
  /\ (forall i rec, detailed !! i = Some rec ->
        rec !! "position" = Some (VInt (Z.of_nat i + 1))
        /\ rec !! "search_query" = Some (VStr query)
        /\ exists u, rec !! "url" = Some (VStr u)
             /\ PyStr.startswith "http" u = true /\ excluded u = false)
  /\ setup_browser = Ok tt /\ save_results detailed = Ok tt /\ cleanup = Ok tt.
Proof.
  intros H. apply run_search_and_scrape_inv in H
    as (srs & Hsg & Hne & -> & Hsetup & Hsave & Hclean).
  repeat split; try assumption.
  - intros Hnil. apply Hne.
    apply (f_equal (@length _)) in Hnil.
    rewrite scrape_search_results_length in Hnil. now destruct srs.
  - intros Hm. rewrite scrape_search_results_length.
    apply (search_google_length_le _ _ _ _ _ _ Hsg Hm).
  - assert (exists sr, srs !! i = Some sr) as [sr Hsr].
    { apply lookup_lt_is_Some. apply lookup_lt_Some in H.
      now rewrite scrape_search_results_length in H. }
    rewrite (scrape_search_results_lookup _ now _ _ _ Hsr) in H. injection H as <-.
    destruct (combine_run_pages pages clock (now i) i sr) as (rec & -> & Hp & _).
    rewrite Hp.
    destruct (search_google_record _ _ _ _ _ _ _ _ Hsg Hsr) as (result & He).
    apply extract_result_inv in He as (t & u & sn & _ & _ & _ & _ & _ & _ & _ & -> & _).
    reflexivity.
  - assert (exists sr, srs !! i = Some sr) as [sr Hsr].
    { apply lookup_lt_is_Some. apply lookup_lt_Some in H.
      now rewrite scrape_search_results_length in H. }
    rewrite (scrape_search_results_lookup _ now _ _ _ Hsr) in H. injection H as <-.
    destruct (combine_run_pages pages clock (now i) i sr)
      as (rec & -> & _ & _ & _ & _ & _ & Hq & _).
    rewrite Hq.
    destruct (search_google_record _ _ _ _ _ _ _ _ Hsg Hsr) as (result & He).
    apply extract_result_inv in He
      as (t & u & sn & _ & _ & _ & _ & _ & _ & _ & _ & _ & _ & ->).
    reflexivity.
  - assert (exists sr, srs !! i = Some sr) as [sr Hsr].
    { apply lookup_lt_is_Some. apply lookup_lt_Some in H.
      now rewrite scrape_search_results_length in H. }
    rewrite (scrape_search_results_lookup _ now _ _ _ Hsr) in H. injection H as <-.
    destruct (combine_run_pages pages clock (now i) i sr)
      as (rec & -> & _ & _ & Hu & _).
    exists (url sr). split; [exact Hu|].
    assert (In sr srs) as Hin
      by (apply list_elem_of_In, list_elem_of_lookup; eauto).
    destruct (search_google_url_facts _ _ _ _ _ _ _ Hsg Hin) as (Hh & Hx & _).
    auto.
Qed.

(** A run returns without having saved anything exactly when the
    browser was set up, the search returned no result and the cleanup went
    through; whether anything can be extracted or saved plays no part. *)
Lemma run_search_and_scrape_nothing_saved urlparse_netloc setup_browser new_page
    debug pages clock now save_results cleanup query max_results :
  run_search_and_scrape urlparse_netloc setup_browser new_page debug pages clock now
    save_results cleanup query max_results = Ok None
  <-> (setup_browser = Ok tt
       /\ search_google urlparse_netloc new_page debug query max_results = Ok []
       /\ cleanup = Ok tt).
Proof.
  unfold run_search_and_scrape, try_finally. split.
  - intros H. destruct cleanup as [[]|]; [|discriminate].
    destruct setup_browser as [[]|]; [|discriminate]. res_simpl.
    destruct (search_google _ _ _ _ _) as [[|sr srs]|]; [auto | | discriminate].
    res_simpl. destruct (save_results _); [|discriminate]. res_simpl.
    destruct (total_words _); discriminate.
  - intros (-> & -> & ->). reflexivity.
Qed.

Lemma scrape_run_keeps_search_fields_witness :
  [site1_record; site2_record] !! 1%nat = Some site2_record
  /\ exists rec,
       scrape_search_results (run_pages ok_pages clock) clock
         [site1_record; site2_record] !! 1%nat = Some rec
       /\ rec !! "position" = Some (VInt (position site2_record))
       /\ rec !! "title" = Some (VStr (title site2_record))
       /\ rec !! "url" = Some (VStr (url site2_record))
       /\ rec !! "snippet" = Some (VStr (snippet site2_record))
       /\ rec !! "domain" = Some (VStr (domain site2_record))
       /\ rec !! "search_query" = Some (VStr (search_query site2_record))
       /\ is_Some (rec !! "error")
       /\ is_Some (rec !! "scraped_at").
Proof.
  split; [reflexivity|].
  apply (scrape_run_keeps_search_fields ok_pages clock clock
           [site1_record; site2_record] 1%nat site2_record eq_refl).
Defined.

Lemma run_search_and_scrape_saved_witness :
  run_search_and_scrape UrlParse.netloc_lenient (Ok tt)
    (Ok (page_with [site 1; google_node; site 2])) false ok_pages clock clock
    (fun _ => Ok tt) (Ok tt) "q" 10 = Ok (Some two_sites_detailed)
  /\ (two_sites_detailed <> []
      /\ (0 <= 10 -> Z.of_nat (length two_sites_detailed) <= 10)
      /\ (forall i rec, two_sites_detailed !! i = Some rec ->
            rec !! "position" = Some (VInt (Z.of_nat i + 1))
            /\ rec !! "search_query" = Some (VStr "q")
            /\ exists u, rec !! "url" = Some (VStr u)
                 /\ PyStr.startswith "http" u = true /\ excluded u = false)
      /\ Ok tt = Ok tt /\ (fun _ : list (gmap string pyval) => @Ok unit tt)
                            two_sites_detailed = Ok tt
      /\ @Ok unit tt = Ok tt).
Proof.
  assert (run_search_and_scrape UrlParse.netloc_lenient (Ok tt)
            (Ok (page_with [site 1; google_node; site 2])) false ok_pages clock clock
            (fun _ => Ok tt) (Ok tt) "q" 10 = Ok (Some two_sites_detailed)) as Hrun
    by (vm_compute; reflexivity).
  split; [exact Hrun|].
  apply (run_search_and_scrape_saved UrlParse.netloc_lenient (Ok tt)
           (Ok (page_with [site 1; google_node; site 2])) false ok_pages clock clock
           (fun _ => Ok tt) (Ok tt) "q" 10 two_sites_detailed Hrun).
Defined.

Example two_sites_statistics :
  total_words two_sites_detailed = Ok 4
  /\ successful two_sites_detailed = 2
  /\ total_words
       (scrape_search_results run_second_fails clock [site1_record; site2_record])
     = Ok 2
  /\ successful
       (scrape_search_results run_second_fails clock [site1_record; site2_record])
     = 1.
Proof. repeat split; vm_compute; reflexivity. Qed.

(** ** The summary on records of any origin *)

Lemma summary_entry_has_error result s :
  summary_entry result = Ok s ->
  s_has_error s = py_bool (py_get result "error" VNone).
Proof.
  unfold summary_entry. destruct (py_len _); [|discriminate]. res_simpl.
  now intros [= <-].
Qed.

(** X17: whatever the records, when the summary of [save_results] is
    built it has one entry per record, and the number of successes the run
    logs is the number of entries without the error flag. *)
Theorem successful_counts_unflagged results entries :
  summary_results results = Ok entries ->
  length entries = length results
  /\ successful results
     = Z.of_nat (length (List.filter (fun s => negb (s_has_error s)) entries)).
Proof.
  unfold successful. revert entries.
  induction results as [|r rest IH]; intros entries H; cbn [summary_results] in H.
  - injection H as <-. split; reflexivity.
  - destruct (summary_entry r) as [s|] eqn:Es; [|discriminate]. res_simpl.
    destruct (summary_results rest) as [es|]; [|discriminate]. res_simpl.
    injection H as <-. destruct (IH es eq_refl) as [Hl Hc].
    split; [simpl; now rewrite Hl|].
    cbn [List.filter]. rewrite (summary_entry_has_error _ _ Es).
    destruct (py_bool (py_get r "error" VNone)); cbn [negb length]; lia.
Qed.

Lemma successful_counts_unflagged_witness :
  exists entries,
    summary_results
      (scrape_search_results run_second_fails clock [site1_record; site2_record])
    = Ok entries
    /\ length entries
       = length (scrape_search_results run_second_fails clock
                   [site1_record; site2_record])
    /\ successful
         (scrape_search_results run_second_fails clock [site1_record; site2_record])
       = Z.of_nat (length (List.filter (fun s => negb (s_has_error s)) entries)).
Proof.
  eexists. split; [vm_compute; reflexivity|].
  apply (successful_counts_unflagged
           (scrape_search_results run_second_fails clock [site1_record; site2_record])).
  vm_compute. reflexivity.
Defined.

(** X18: the summary can be built exactly when no record holds a
    [headings] value without a length ([None] or an int); a record without
    the key counts as having no headings. *)
Theorem summary_results_succeeds_iff results :
  (exists entries, summary_results results = Ok entries)
  <-> Forall (fun r => r !! "headings" <> Some VNone
                       /\ forall z, r !! "headings" <> Some (VInt z)) results.
Proof.
  induction results as [|r rest IH]; cbn [summary_results].
  - split; [constructor | eauto].
  - assert ((exists s, summary_entry r = Ok s)
            <-> (r !! "headings" <> Some VNone
                 /\ forall z, r !! "headings" <> Some (VInt z))) as Hr.
    { unfold summary_entry, py_get.
      destruct (r !! "headings") as [[| z | s | l | items]|]; cbn [default py_len];
        res_simpl; split; intros H; try (split; [|intros z']); try discriminate;
        eauto; try (destruct H as [s' H]; discriminate);
        try (destruct H as [H1 H2]; first [now destruct H1 | now destruct (H2 z)]). }
    split.
    + intros [entries H].
      destruct (summary_entry r) as [s|] eqn:Es; [|discriminate]. res_simpl.
      destruct (summary_results rest) as [es|] eqn:Ee; [|discriminate].
      constructor; [apply Hr; eauto | apply IH; eauto].
    + intros H. apply Forall_cons in H as [H1 H2].
      apply Hr in H1 as [s ->]. apply IH in H2 as [es ->]. res_simpl. eauto.
Qed.

(** ** The names of the two files *)

Lemma has_char_app c a b :
  UrlParse.has_char c (a +:+ b) = UrlParse.has_char c a || UrlParse.has_char c b.
Proof.
  induction a as [|x a IH]; [reflexivity|].
  change (Ascii.eqb c x || UrlParse.has_char c (a +:+ b)
          = Ascii.eqb c x || UrlParse.has_char c a || UrlParse.has_char c b).
  rewrite IH. apply orb_assoc.
Qed.

Lemma append_inj_l (a b c : string) : a +:+ b = a +:+ c -> b = c.
Proof.
  induction a as [|x a IH]; [auto|]. intros H.
  change (String x (a +:+ b) = String x (a +:+ c)) in H. injection H as H. auto.
Qed.

(** X19: for a timestamp without a slash, neither file name holds a
    slash, whatever the query, so both files lie in the output directory
    itself; and the two names differ. *)
Theorem file_names_stay_in_output_dir query timestamp :
  UrlParse.has_char "/" timestamp = false ->
  UrlParse.has_char "/" (detailed_file_name query timestamp) = false
  /\ UrlParse.has_char "/" (summary_file_name query timestamp) = false
  /\ detailed_file_name query timestamp <> summary_file_name query timestamp.
Proof.
  intros Ht.
  assert (UrlParse.has_char "/" (safe_query query) = false) as Hq.
  { destruct (UrlParse.has_char "/" (safe_query query)) eqn:E; [|reflexivity].
    unfold safe_query in E.
    apply has_char_replace_space in E as [E | [_ E]]; [discriminate|].
    unfold PyStr.strip in E.
    apply has_char_rstrip, has_char_lstrip, has_char_keep_chars in E as [E _].
    discriminate. }
  unfold detailed_file_name, summary_file_name. repeat split.
  - rewrite !has_char_app, Hq, Ht. reflexivity.
  - rewrite !has_char_app, Hq, Ht. reflexivity.
  - intros H. do 3 apply append_inj_l in H. discriminate.
Qed.

Lemma file_names_stay_in_output_dir_witness :
  UrlParse.has_char "/" "20240501_100000" = false
  /\ UrlParse.has_char "/" (detailed_file_name "a/b ../c" "20240501_100000") = false
  /\ UrlParse.has_char "/" (summary_file_name "a/b ../c" "20240501_100000") = false
  /\ detailed_file_name "a/b ../c" "20240501_100000"
     <> summary_file_name "a/b ../c" "20240501_100000".
Proof.
  split; [reflexivity|].
  apply (file_names_stay_in_output_dir "a/b ../c" "20240501_100000"). reflexivity.
Defined.
